(** * Preswald: the headless script service and the environment detector

    A shallow embedding of [preswald/engine/script_service.py] and of the
    module body of [preswald/engine/service.py], with the properties of
    their specification stated and proved over it.

    Python values are the JSON-like fragment the service handles (None,
    booleans, integers, strings, lists and mappings with string keys);
    floats are left out.  A Python [str] is the Rocq [string] of its UTF-8
    bytes, and [len] counts its code points.  [repr] escapes the ASCII
    control characters only, so it is Python's on strings whose other
    characters are printable.  The standard output takes every string (a
    UTF-8 console): [print] does not fail.  Coroutines ([async def]) are
    modelled as awaited at the call, and calls run one after the other:
    the locks are not modelled.
*)

From Stdlib Require Import ZArith List Bool Ascii String DecimalString.
From stdpp Require Import base option list strings gmap.

Local Open Scope Z_scope.
Local Open Scope string_scope.
Local Open Scope list_scope.

(** ** Python values *)

#[warnings="-register-all"] Inductive pyval : Type :=
| VNone
| VBool (b : bool)
| VInt (z : Z)
| VStr (s : string)
| VList (l : list pyval)
| VDict (d : list (string * pyval)).

(** A mapping is an insertion-ordered association list; a Python dict holds
    every key once, which [dict_wf] says. *)
Abbreviation pydict := (list (string * pyval)).

Definition dict_keys (d : pydict) : list string := map fst d.

Definition dict_wf (d : pydict) : Prop := NoDup (dict_keys d).

(** [d.get(k)] and [k in d]. *)
Fixpoint dict_get (k : string) (d : pydict) : option pyval :=
  match d with
  | [] => None
  | (k', v) :: d' => if String.eqb k k' then Some v else dict_get k d'
  end.

Definition dict_has (k : string) (d : pydict) : bool :=
  match dict_get k d with Some _ => true | None => false end.

(** [d.get(k, default)]. *)
Definition dict_get_default (k : string) (default : pyval) (d : pydict) : pyval :=
  match dict_get k d with Some v => v | None => default end.

(** ** Exceptions and results *)

Inductive exn : Type :=
| RuntimeError (msg : string)
| FileNotFoundError (msg : string)
| TypeError (msg : string)
| AttributeError (msg : string)
| KeyError (key : string)
| OSError (msg : string)
| ReferenceError.

Inductive result (A : Type) : Type :=
| Ok (a : A)
| Raise (e : exn).

Arguments Ok {A} a.
Arguments Raise {A} e.

(** [d[k]]. *)
Definition dict_item (k : string) (d : pydict) : result pyval :=
  match dict_get k d with Some v => Ok v | None => Raise (KeyError k) end.

(** ** Dictionary keys of the state store

    [_component_states] is a plain dict: any hashable value can be a key,
    [True] and [1] are the same key, and a list or a mapping is unhashable. *)

Inductive key : Type :=
| KNone
| KInt (z : Z)
| KStr (s : string).

#[global] Instance key_eq_dec : EqDecision key.
Proof. solve_decision. Defined.

#[global] Instance key_countable : Countable key :=
  inj_countable'
    (fun k => match k with
              | KNone => inl tt
              | KInt z => inr (inl z)
              | KStr s => inr (inr s)
              end)
    (fun x => match x with
              | inl _ => KNone
              | inr (inl z) => KInt z
              | inr (inr s) => KStr s
              end)
    (fun k => match k with KNone => eq_refl | KInt _ => eq_refl | KStr _ => eq_refl end).

Definition type_name (v : pyval) : string :=
  match v with
  | VNone => "NoneType"
  | VBool _ => "bool"
  | VInt _ => "int"
  | VStr _ => "str"
  | VList _ => "list"
  | VDict _ => "dict"
  end.

(** [hash(v)] as a key, or the TypeError of an unhashable value. *)
Definition hash_key (v : pyval) : result key :=
  match v with
  | VNone => Ok KNone
  | VBool b => Ok (KInt (Z.b2z b))
  | VInt z => Ok (KInt z)
  | VStr s => Ok (KStr s)
  | VList _ | VDict _ =>
      Raise (TypeError ("unhashable type: '" +:+ type_name v +:+ "'"))
  end.

(** ** [str], [repr], [len] and truth value *)

Definition str_of_Z (z : Z) : string := NilZero.string_of_int (Z.to_int z).

Definition hex_digit (n : N) : ascii :=
  if (n <? 10)%N then ascii_of_N (48 + n) else ascii_of_N (87 + n).

Definition backslash : ascii := "092"%char.
Definition dquote : ascii := "034"%char.
Definition squote : ascii := "039"%char.

(** One character of [repr] of a string quoted with [q]. *)
Definition repr_char (q : ascii) (c : ascii) : string :=
  let n := N_of_ascii c in
  if Ascii.eqb c backslash then String backslash (String backslash EmptyString)
  else if Ascii.eqb c q then String backslash (String q EmptyString)
  else if (n =? 9)%N then String backslash "t"
  else if (n =? 10)%N then String backslash "n"
  else if (n =? 13)%N then String backslash "r"
  else if ((n <? 32) || (n =? 127))%N
       then String backslash
              (String "x" (String (hex_digit (n / 16))
                             (String (hex_digit (n mod 16)) EmptyString)))
  else String c EmptyString.

Fixpoint str_contains (c : ascii) (s : string) : bool :=
  match s with
  | EmptyString => false
  | String c' s' => Ascii.eqb c c' || str_contains c s'
  end.

Fixpoint str_flat_map (f : ascii -> string) (s : string) : string :=
  match s with
  | EmptyString => EmptyString
  | String c s' => f c +:+ str_flat_map f s'
  end.

(** [repr(s)]: single quotes, unless the string has a single quote and no
    double quote. *)
Definition repr_str (s : string) : string :=
  let q := if str_contains squote s && negb (str_contains dquote s)
           then dquote else squote in
  String q (str_flat_map (repr_char q) s) +:+ String q EmptyString.

Fixpoint join (sep : string) (l : list string) : string :=
  match l with
  | [] => EmptyString
  | [x] => x
  | x :: l' => x +:+ sep +:+ join sep l'
  end.

Fixpoint py_repr (v : pyval) : string :=
  match v with
  | VNone => "None"
  | VBool true => "True"
  | VBool false => "False"
  | VInt z => str_of_Z z
  | VStr s => repr_str s
  | VList l => "[" +:+ join ", " (map py_repr l) +:+ "]"
  | VDict d =>
      "{" +:+ join ", " (map (fun kv => match kv with
                                        | (k, x) => repr_str k +:+ ": " +:+ py_repr x
                                        end) d) +:+ "}"
  end.

(** [str(v)], which is what an f-string field prints. *)
Definition py_str (v : pyval) : string :=
  match v with
  | VStr s => s
  | _ => py_repr v
  end.

(** The code points of a string: the bytes that do not continue a UTF-8
    sequence. *)
Fixpoint code_points (s : string) : nat :=
  match s with
  | EmptyString => O
  | String c s' =>
      let n := N_of_ascii c in
      if ((n <? 128) || (192 <=? n))%N then S (code_points s') else code_points s'
  end.

(** [len(v)]. *)
Definition py_len (v : pyval) : result Z :=
  match v with
  | VStr s => Ok (Z.of_nat (code_points s))
  | VList l => Ok (Z.of_nat (List.length l))
  | VDict d => Ok (Z.of_nat (List.length d))
  | _ => Raise (TypeError ("object of type '" +:+ type_name v +:+ "' has no len()"))
  end.

(** [bool(v)]. *)
Definition truthy (v : pyval) : bool :=
  match v with
  | VNone => false
  | VBool b => b
  | VInt z => negb (z =? 0)%Z
  | VStr s => negb (String.eqb s EmptyString)
  | VList l => match l with [] => false | _ => true end
  | VDict d => match d with [] => false | _ => true end
  end.

(** [a == b] for a value against a string literal. *)
Definition eq_str (v : pyval) (s : string) : bool :=
  match v with
  | VStr s' => String.eqb s' s
  | _ => false
  end.


Definition str_of_exn (e : exn) : string :=
  match e with
  | RuntimeError m | FileNotFoundError m | TypeError m | AttributeError m | OSError m => m
  | KeyError k => repr_str k
  | ReferenceError => EmptyString
  end.

(** ** [os.path] (POSIX) *)

Definition sep : ascii := "/"%char.

Fixpoint all_sep (s : string) : bool :=
  match s with
  | EmptyString => true
  | String c s' => Ascii.eqb c sep && all_sep s'
  end.

(** [p[:p.rfind('/') + 1]]. *)
Fixpoint upto_last_sep (p : string) : string :=
  match p with
  | EmptyString => EmptyString
  | String c p' =>
      if str_contains sep p' then String c (upto_last_sep p')
      else if Ascii.eqb c sep then String c EmptyString
      else EmptyString
  end.

(** [s.rstrip('/')]. *)
Fixpoint rstrip_sep (s : string) : string :=
  match s with
  | EmptyString => EmptyString
  | String c s' =>
      match rstrip_sep s' with
      | EmptyString => if Ascii.eqb c sep then EmptyString else String c EmptyString
      | r => String c r
      end
  end.

Definition os_path_dirname (p : string) : string :=
  let head := upto_last_sep p in
  if negb (String.eqb head EmptyString) && negb (all_sep head)
  then rstrip_sep head else head.

Fixpoint ends_with_sep (s : string) : bool :=
  match s with
  | EmptyString => false
  | String c EmptyString => Ascii.eqb c sep
  | String _ s' => ends_with_sep s'
  end.

Definition starts_with_sep (s : string) : bool :=
  match s with
  | String c _ => Ascii.eqb c sep
  | EmptyString => false
  end.

Definition os_path_join (a b : string) : string :=
  if starts_with_sep b then b
  else if String.eqb a EmptyString || ends_with_sep a then a +:+ b
  else a +:+ "/" +:+ b.


(** ** A state and exception monad

    A computation takes the state and gives a result and the state it left:
    what a call did before it raised stays done. *)

Definition M (S A : Type) : Type := S -> result A * S.

Definition ret {S A} (a : A) : M S A := fun s => (Ok a, s).

Definition bind {S A B} (m : M S A) (k : A -> M S B) : M S B :=
  fun s => match m s with
           | (Ok a, s') => k a s'
           | (Raise e, s') => (Raise e, s')
           end.

Definition raise {S A} (e : exn) : M S A := fun s => (Raise e, s).

Definition lift_result {S A} (r : result A) : M S A := fun s => (r, s).

Definition get {S} : M S S := fun s => (Ok s, s).

Definition modify {S} (f : S -> S) : M S unit := fun s => (Ok tt, f s).

(** [try: body  except Exception as e: handler e]. *)
Definition try_except {S A} (body : M S A) (handler : exn -> M S A) : M S A :=
  fun s => match body s with
           | (Ok a, s') => (Ok a, s')
           | (Raise e, s') => handler e s'
           end.

Declare Scope py_scope.
Delimit Scope py_scope with py.
Notation "x <- m ;; k" := (bind m (fun x => k))
  (at level 100, m at next level, k at level 200, right associativity) : py_scope.
Notation "m ;; k" := (bind m (fun _ => k))
  (at level 100, k at level 200, right associativity) : py_scope.
Local Open Scope py_scope.

(** [for x in l: body x]. *)
Fixpoint for_each {S A} (l : list A) (body : A -> M S unit) : M S unit :=
  match l with
  | [] => ret tt
  | x :: l' => body x ;; for_each l' body
  end.

(** ** The console: standard output and the log *)

Inductive log_level : Type := DEBUG | INFO | ERROR.

Record log_record : Type := Log { level : log_level; message : string }.

Record console : Type := Console {
  stdout : list string;   (* one entry per [print] call *)
  log : list log_record
}.

Definition console_print (line : string) (c : console) : console :=
  Console (stdout c ++ [line]) (log c).

Definition console_log (r : log_record) (c : console) : console :=
  Console (stdout c) (log c ++ [r]).

(** ** The data-access collaborator *)

(** Modelled from the spec: the class [DataManager] of
    [preswald.engine.managers.data], which the service only constructs.
    The spec has it built from a configuration path and a secrets path, and
    has its construction without arguments give the empty, no-op
    collaborator. *)
Record DataManager : Type := mkDataManager {
  preswald_path : option string;
  secrets_path : option string
}.

(** Modelled from the spec: [DataManager()], the empty collaborator. *)
Definition DataManager_empty : DataManager := mkDataManager None None.

(** ** The service object *)

Record ScriptService : Type := mkScriptService {
  _component_states : gmap key pyval;
  _rendered_components : list pyval;
  data_manager : option DataManager;
  branding_manager : option pyval;
  _script_path : option string;
  _is_shutting_down : bool;
  websocket_connections : pydict;
  script_runners : pydict
}.

Definition set_component_states (f : gmap key pyval -> gmap key pyval) (o : ScriptService) :=
  mkScriptService (f (_component_states o)) (_rendered_components o) (data_manager o)
    (branding_manager o) (_script_path o) (_is_shutting_down o)
    (websocket_connections o) (script_runners o).

Definition set_rendered_components (f : list pyval -> list pyval) (o : ScriptService) :=
  mkScriptService (_component_states o) (f (_rendered_components o)) (data_manager o)
    (branding_manager o) (_script_path o) (_is_shutting_down o)
    (websocket_connections o) (script_runners o).

Definition set_data_manager (d : option DataManager) (o : ScriptService) :=
  mkScriptService (_component_states o) (_rendered_components o) d
    (branding_manager o) (_script_path o) (_is_shutting_down o)
    (websocket_connections o) (script_runners o).

Definition set_script_path (p : option string) (o : ScriptService) :=
  mkScriptService (_component_states o) (_rendered_components o) (data_manager o)
    (branding_manager o) p (_is_shutting_down o)
    (websocket_connections o) (script_runners o).

Definition set_is_shutting_down (b : bool) (o : ScriptService) :=
  mkScriptService (_component_states o) (_rendered_components o) (data_manager o)
    (branding_manager o) (_script_path o) b
    (websocket_connections o) (script_runners o).

(** A method runs on its object and the console. *)
Record self_state : Type := SelfState { self : ScriptService; con : console }.

Abbreviation Meth := (M self_state).

Definition update_self (f : ScriptService -> ScriptService) : Meth unit :=
  modify (fun s => SelfState (f (self s)) (con s)).

Definition print (line : string) : Meth unit :=
  modify (fun s => SelfState (self s) (console_print line (con s))).

Definition logger (l : log_level) (msg : string) : Meth unit :=
  modify (fun s => SelfState (self s) (console_log (Log l msg) (con s))).

(** ** [ScriptService]: the methods *)

Module ScriptService.

(** [__init__]: the fresh object, and the line it logs. *)
Definition fresh : ScriptService :=
  mkScriptService ∅ [] None None None false [] [].

Definition __init__ (c : console) : self_state :=
  SelfState fresh (console_log (Log INFO "Initialized ScriptService for headless mode") c).

Definition _print_component (component : pyval) : Meth unit :=
  match component with
  | VStr s => print ("[html] " +:+ s)
  | VDict d =>
      let component_type := dict_get_default "type" VNone d in
      if eq_str component_type "text" then
        print ("[text] " +:+ py_str (dict_get_default "markdown" (VStr EmptyString) d))
      else if eq_str component_type "slider" then
        let label := dict_get_default "label" (VStr EmptyString) d in
        let value := dict_get_default "value" (VStr EmptyString) d in
        print ("[slider] " +:+ py_str label +:+ ": " +:+ py_str value)
      else if eq_str component_type "plot" then
        print "[plot] Plot would be displayed in browser mode"
      else if eq_str component_type "table" then
        let data := dict_get_default "data" (VList []) d in
        let title := dict_get_default "title" (VStr "Table") d in
        n <- lift_result (py_len data) ;;
        print ("[table] " +:+ py_str title +:+ " (" +:+ str_of_Z n +:+ " rows)")
      else if eq_str component_type "checkbox" then
        let label := dict_get_default "label" (VStr EmptyString) d in
        let value := dict_get_default "value" (VBool false) d in
        print ("[checkbox] " +:+ py_str label +:+ ": " +:+
               (if truthy value then "✓" else "✗"))
      else if eq_str component_type "selectbox" then
        let label := dict_get_default "label" (VStr EmptyString) d in
        let value := dict_get_default "value" (VStr EmptyString) d in
        print ("[selectbox] " +:+ py_str label +:+ ": " +:+ py_str value)
      else
        let component_id := dict_get_default "id" (VStr "unknown") d in
        print ("[" +:+ py_str component_type +:+ "] Component ID: " +:+ py_str component_id)
  | _ => print ("[unknown] " +:+ py_str component)
  end.

(** [self._component_states[k] = v], with [k] hashed first. *)
Definition store_set (k : pyval) (v : pyval) : Meth unit :=
  k' <- lift_result (hash_key k) ;;
  update_self (set_component_states (fun m => <[k' := v]> m)).

(** The last statement of [append_component]: the state is updated when
    the component is a mapping with the keys [id] and [value]. *)
Definition update_component_state (component : pyval) : Meth unit :=
  match component with
  | VDict d =>
      if dict_has "id" d && dict_has "value" d then
        v <- lift_result (dict_item "value" d) ;;
        i <- lift_result (dict_item "id" d) ;;
        store_set i v
      else ret tt
  | _ => ret tt
  end.

Definition append_component (component : pyval) : Meth unit :=
  try_except
    (update_self (set_rendered_components (fun l => (l ++ [component])%list)) ;;
     _print_component component ;;
     update_component_state component)
    (fun e =>
       logger ERROR ("Error processing component in headless mode: " +:+ str_of_exn e)).

Definition get_rendered_components : Meth pyval :=
  s <- get ;;
  ret (VDict [("rows", VList (_rendered_components (self s)))]).

Definition get_component_state (component_id : string) (default : pyval) : Meth pyval :=
  s <- get ;;
  let value := match _component_states (self s) !! KStr component_id with
               | Some v => v
               | None => default
               end in
  logger DEBUG ("[STATE] Getting state for " +:+ component_id +:+ ": " +:+ py_str value) ;;
  ret value.

Definition clear_components : Meth unit :=
  update_self (set_rendered_components (fun _ => [])).

Definition register_client (client_id : string) : Meth pyval :=
  logger DEBUG ("Client registration ignored in headless mode: " +:+ client_id) ;;
  ret VNone.

Definition unregister_client (client_id : string) : Meth unit := ret tt.

(** [states.items()] of the value found under [states]. *)
Definition items (v : pyval) : result pydict :=
  match v with
  | VDict d => Ok d
  | _ => Raise (AttributeError ("'" +:+ type_name v +:+ "' object has no attribute 'items'"))
  end.

Definition handle_client_message (client_id : string) (message : pydict) : Meth unit :=
  if eq_str (dict_get_default "type" VNone message) "component_update" then
    let states := dict_get_default "states" (VDict []) message in
    its <- lift_result (items states) ;;
    for_each its (fun kv =>
      match kv with
      | (component_id, value) =>
          update_self (set_component_states (fun m => <[KStr component_id := value]> m)) ;;
          logger DEBUG ("Updated component state: " +:+ component_id +:+ " = " +:+ py_str value)
      end)
  else ret tt.

Definition shutdown : Meth unit :=
  update_self (set_is_shutting_down true) ;;
  logger INFO "Script service shutting down...".

Definition script_path : Meth (option string) :=
  s <- get ;; ret (_script_path (self s)).

(** *** The class: its [_instance] attribute and the objects it created *)

Record process : Type := Process {
  _instance : option nat;        (* [cls._instance]: a reference, or None *)
  heap : list ScriptService;     (* the objects, by reference *)
  proc_console : console
}.

(** The process before the module is used. *)
Definition process_start : process := Process None [] (Console [] []).

(** A method call on the object at reference [a].  Every reference the
    class hands out is that of an object; on any other number the call
    does nothing. *)
Definition on {A} (a : nat) (m : Meth A) : M process A :=
  fun p =>
    match heap p !! a with
    | Some o =>
        match m (SelfState o (proc_console p)) with
        | (r, s') => (r, Process (_instance p) (<[a := self s']> (heap p)) (con s'))
        end
    | None => (Raise ReferenceError, p)
    end.

(** [cls()]. *)
Definition new : M process nat :=
  fun p =>
    let s := __init__ (proc_console p) in
    (Ok (length (heap p)), Process (_instance p) (heap p ++ [self s]) (con s)).

Definition set_instance (a : option nat) : M process unit :=
  modify (fun p => Process a (heap p) (proc_console p)).

(** [if script_path:] on an optional string. *)
Definition given (script_path : option string) : option string :=
  match script_path with
  | Some p => if String.eqb p EmptyString then None else Some p
  | None => None
  end.

Definition get_instance : M process nat :=
  p <- get ;;
  match _instance p with
  | None => raise (RuntimeError "ScriptService not initialized. Did you call initialize()?")
  | Some a => ret a
  end.

Section Environment.

(** What the service reads from outside: [os.path.exists], and whether
    [DataManager(preswald_path=..., secrets_path=...)] raises. *)
Variable os_path_exists : string -> bool.
Variable DataManager_raises : string -> string -> option exn.

Definition DataManager_new (preswald_path secrets_path : string) : result DataManager :=
  match DataManager_raises preswald_path secrets_path with
  | Some e => Raise e
  | None => Ok (mkDataManager (Some preswald_path) (Some secrets_path))
  end.

Definition _initialize_data_manager (script_path : string) : Meth unit :=
  try_except
    (let script_dir := os_path_dirname script_path in
     let preswald_path := os_path_join script_dir "preswald.toml" in
     let secrets_path := os_path_join script_dir "secrets.toml" in
     dm <- lift_result (DataManager_new preswald_path secrets_path) ;;
     update_self (set_data_manager (Some dm)))
    (fun e =>
       logger ERROR ("Error initializing data manager: " +:+ str_of_exn e) ;;
       update_self (set_data_manager (Some DataManager_empty))).

(** The [script_path] setter. *)
Definition script_path_setter (path : string) : Meth unit :=
  if negb (os_path_exists path) then
    raise (FileNotFoundError ("Script not found: " +:+ path))
  else
    update_self (set_script_path (Some path)) ;;
    _initialize_data_manager path.

Definition initialize (script_path : option string) : M process nat :=
  p <- get ;;
  match _instance p with
  | None =>
      a <- new ;;
      set_instance (Some a) ;;
      match given script_path with
      | Some path =>
          on a (update_self (set_script_path (Some path))) ;;
          on a (_initialize_data_manager path) ;;
          ret a
      | None => ret a
      end
  | Some a => ret a
  end.

End Environment.

End ScriptService.

(** ** [preswald.engine.service]: the environment detector *)

Module Service.

Inductive ExecutionContext : Type := Virtual | Headless | Server.

(** A frame of the call stack: its globals and its code's file name. *)
Record frame : Type := Frame {
  f_globals : pydict;
  co_filename : string
}.

(** What the module body reads: the loaded modules with their [__file__],
    the environment variables and the stack, innermost frame first. *)
Record interpreter : Type := Interpreter {
  sys_modules : list (string * string);
  os_environ : list (string * string);
  stack : list frame
}.

Fixpoint assoc (k : string) (l : list (string * string)) : option string :=
  match l with
  | [] => None
  | (k', v) :: l' => if String.eqb k k' then Some v else assoc k l'
  end.

(** ["pyodide" in sys.modules]. *)
Definition IS_PYODIDE (i : interpreter) : bool :=
  match assoc "pyodide" (sys_modules i) with Some _ => true | None => false end.

(** [os.environ.get("PRESWALD_HEADLESS") == "1"]. *)
Definition env_headless (i : interpreter) : bool :=
  match assoc "PRESWALD_HEADLESS" (os_environ i) with
  | Some v => String.eqb v "1"
  | None => false
  end.

(** [sys.modules['preswald.main'].__file__]. *)
Definition main_file (i : interpreter) : result string :=
  match assoc "preswald.main" (sys_modules i) with
  | Some file => Ok file
  | None => Raise (KeyError "preswald.main")
  end.

(** [frame.f_globals.get("__name__") == "__main__"]. *)
Definition is_main (f : frame) : bool :=
  eq_str (dict_get_default "__name__" VNone (f_globals f)) "__main__".

(** The [while frame:] loop: whether it set [IS_HEADLESS]. *)
Fixpoint walk (i : interpreter) (frames : list frame) : M console bool :=
  match frames with
  | [] => ret false
  | f :: f_back =>
      if is_main f then
        file <- lift_result (main_file i) ;;
        if negb (String.eqb (co_filename f) file) then
          modify (console_log (Log INFO "Detected direct script execution, setting headless mode")) ;;
          ret true
        else walk i f_back
      else walk i f_back
  end.

Definition IS_HEADLESS (i : interpreter) : M console bool :=
  if negb (env_headless i) && negb (IS_PYODIDE i) then walk i (stack i)
  else ret (env_headless i).

(** The module body up to the choice of [ServiceImpl]. *)
Definition classify (i : interpreter) : M console ExecutionContext :=
  headless <- IS_HEADLESS i ;;
  if IS_PYODIDE i then
    modify (console_log (Log INFO "Using VirtualPreswaldService (Browser/Pyodide environment)")) ;;
    ret Virtual
  else if headless then
    modify (console_log (Log INFO "Using ScriptService (Headless mode)")) ;;
    ret Headless
  else
    modify (console_log (Log INFO "Using ServerPreswaldService (Native Python environment)")) ;;
    ret Server.

End Service.

(** ** Definitions the statements use *)

Import ScriptService.

Definition slider_Speed : pyval :=
  VDict [("type", VStr "slider"); ("label", VStr "Speed"); ("value", VInt 5)].

Definition table_Results : pyval :=
  VDict [("type", VStr "table"); ("title", VStr "Results");
         ("data", VList [VInt 1; VInt 2; VInt 3])].

(** The state a call leaves when it printed [line] and did nothing else. *)
Definition printed (line : string) (s : self_state) : self_state :=
  SelfState (self s) (console_print line (con s)).

(** A component that lacks the key [id] or the key [value], or is no
    mapping at all. *)
Definition lacks_id_or_value (component : pyval) : Prop :=
  match component with
  | VDict d => dict_get "id" d = None \/ dict_get "value" d = None
  | _ => True
  end.

(** The store after the pairs of [states] were written into [m] in order. *)
Definition upsert_all (states : pydict) (m : gmap key pyval) : gmap key pyval :=
  foldl (fun m kv => <[KStr (fst kv) := snd kv]> m) m states.

(** What [get_component_state] reads from a store. *)
Definition read (m : gmap key pyval) (component_id : string) (default : pyval) : pyval :=
  match m !! KStr component_id with Some v => v | None => default end.

(** The message of the spec's example. *)
Definition update_a_b : pydict :=
  [("type", VStr "component_update");
   ("states", VDict [("a", VInt 1); ("b", VInt 2)])].

(** *** Sequences of calls on the service object *)

Inductive call : Type :=
| Append_component (component : pyval)
| Handle_client_message (client_id : string) (message : pydict)
| Get_component_state (component_id : string) (default : pyval)
| Get_rendered_components
| Clear_components
| Register_client (client_id : string)
| Unregister_client (client_id : string)
| Shutdown
| Get_script_path.

(** The state a call leaves, whether it returned or raised. *)
Definition exec (c : call) (s : self_state) : self_state :=
  match c with
  | Append_component component => snd (append_component component s)
  | Handle_client_message client_id message => snd (handle_client_message client_id message s)
  | Get_component_state component_id default => snd (get_component_state component_id default s)
  | Get_rendered_components => snd (get_rendered_components s)
  | Clear_components => snd (clear_components s)
  | Register_client client_id => snd (register_client client_id s)
  | Unregister_client client_id => snd (unregister_client client_id s)
  | Shutdown => snd (shutdown s)
  | Get_script_path => snd (script_path s)
  end.

Definition run (cs : list call) (s : self_state) : self_state := foldl (fun s c => exec c s) s cs.

(** Whether printing the component goes through: only the length of a
    table's [data] can fail. *)
Definition printable (component : pyval) : bool :=
  match component with
  | VDict d =>
      if eq_str (dict_get_default "type" VNone d) "table"
      then match py_len (dict_get_default "data" (VList []) d) with
           | Ok _ => true
           | Raise _ => false
           end
      else true
  | _ => true
  end.

(** The pairs a call writes for identifiers: the [id] and [value] an
    appended component carries, when the component was printed and its [id]
    can be a key; the pairs of the [states] of a [component_update]. *)
Definition writes_of (c : call) : list (key * pyval) :=
  match c with
  | Append_component (VDict d) =>
      match dict_get "id" d, dict_get "value" d, printable (VDict d) with
      | Some i, Some v, true =>
          match hash_key i with Ok k => [(k, v)] | Raise _ => [] end
      | _, _, _ => []
      end
  | Handle_client_message _ message =>
      match dict_get "type" message, dict_get_default "states" (VDict []) message with
      | Some (VStr t), VDict states =>
          if String.eqb t "component_update"
          then map (fun kv => (KStr (fst kv), snd kv)) states
          else []
      | _, _ => []
      end
  | _ => []
  end.

Definition trace (cs : list call) : list (key * pyval) := concat (map writes_of cs).

(** The value most recently written for [k] in a trace of writes. *)
Fixpoint last_write (k : key) (t : list (key * pyval)) : option pyval :=
  match t with
  | [] => None
  | (k', v) :: t' =>
      match last_write k t' with
      | Some v' => Some v'
      | None => if decide (k = k') then Some v else None
      end
  end.

(** The store after a trace of writes. *)
Definition apply_writes (t : list (key * pyval)) (m : gmap key pyval) : gmap key pyval :=
  foldl (fun m kv => <[fst kv := snd kv]> m) m t.

(** *** Shutdown events *)

Definition shutdown_event : log_record := Log INFO "Script service shutting down...".

Definition is_shutdown_event (r : log_record) : bool :=
  match level r with
  | INFO => String.eqb (message r) "Script service shutting down..."
  | _ => false
  end.

Definition shutdown_events (c : console) : nat :=
  length (filter (fun r => is_shutdown_event r = true) (log c)).

(** Two calls of [shutdown] in a row. *)
Definition shutdown_twice : Meth unit := shutdown ;; shutdown.

(** *** Sequences of calls on the class and its objects *)

Inductive class_call : Type :=
| Initialize (script_path : option string)
| Get_instance
| Method (a : nat) (c : call)
| Set_script_path (a : nat) (path : string).

Section ClassCalls.

Variable os_path_exists : string -> bool.
Variable DataManager_raises : string -> string -> option exn.

(** The process a call leaves, whether it returned or raised. *)
Definition exec_class (c : class_call) (p : process) : process :=
  match c with
  | Initialize script_path => snd (initialize DataManager_raises script_path p)
  | Get_instance => snd (get_instance p)
  | Method a c => snd (on a (fun s => (Ok tt, exec c s)) p)
  | Set_script_path a path =>
      snd (on a (script_path_setter os_path_exists DataManager_raises path) p)
  end.

Definition run_class (cs : list class_call) (p : process) : process :=
  foldl (fun p c => exec_class c p) p cs.

End ClassCalls.

(** The reference in [_instance], if any, is that of an object. *)
Definition instance_allocated (p : process) : Prop :=
  match _instance p with
  | Some a => a < length (heap p)
  | None => True
  end%nat.

(** An environment where nothing exists and no configuration loads. *)
Definition nothing_exists (path : string) : bool := false.
Definition always_raises (preswald_path secrets_path : string) : option exn :=
  Some (OSError ("cannot load " +:+ preswald_path)).
Definition never_raises (preswald_path secrets_path : string) : option exn := None.

(** *** The detector *)

(** A frame of a script run directly, against the server entry [file]. *)
Definition script_frame (file : string) (f : Service.frame) : bool :=
  Service.is_main f && negb (String.eqb (Service.co_filename f) file).

(** The object [initialize] builds when there is none, with the console it
    leaves: [__init__], then the script path and the data manager when a
    path was given. *)
Definition initialized_object (DataManager_raises : string -> string -> option exn)
    (script_path : option string) (c : console) : self_state :=
  match given script_path with
  | Some path =>
      snd (_initialize_data_manager DataManager_raises path
             (SelfState (set_script_path (Some path) fresh) (con (__init__ c))))
  | None => __init__ c
  end.

Definition is_initialize (c : class_call) : bool :=
  match c with Initialize _ => true | _ => false end.

Definition not_initialized : exn :=
  RuntimeError "ScriptService not initialized. Did you call initialize()?".

(** The configuration and secrets paths next to a script. *)
Definition config_paths (script_path : string) : string * string :=
  (os_path_join (os_path_dirname script_path) "preswald.toml",
   os_path_join (os_path_dirname script_path) "secrets.toml").

(** The process after [initialize(None)] then [shutdown()] from the start. *)
Definition after_shutdown : process :=
  snd (on 0%nat shutdown (snd (initialize never_raises None process_start))).

(** A script run directly, with the server entry module loaded. *)
Definition direct_run : Service.interpreter :=
  Service.Interpreter
    [("preswald.main", "/lib/preswald/main.py")]
    []
    [Service.Frame [("__name__", VStr "preswald.engine.service")]
                   "/lib/preswald/engine/service.py";
     Service.Frame [("__name__", VStr "__main__")] "/home/u/app.py"].

(** The server started from its entry file. *)
Definition server_run : Service.interpreter :=
  Service.Interpreter
    [("preswald.main", "/lib/preswald/main.py")]
    [("PRESWALD_HEADLESS", "0")]
    [Service.Frame [("__name__", VStr "preswald.engine.service")]
                   "/lib/preswald/engine/service.py";
     Service.Frame [("__name__", VStr "__main__")] "/lib/preswald/main.py"].

(** A run inside the browser, the headless variable set. *)
Definition browser_run : Service.interpreter :=
  Service.Interpreter
    [("pyodide", "/lib/pyodide/__init__.py")]
    [("PRESWALD_HEADLESS", "1")]
    [Service.Frame [("__name__", VStr "__main__")] "/home/u/app.py"].

(** A run with the headless variable set, [preswald.main] not loaded. *)
Definition headless_run : Service.interpreter :=
  Service.Interpreter
    []
    [("PRESWALD_HEADLESS", "1")]
    [Service.Frame [("__name__", VStr "__main__")] "/home/u/app.py"].

(** A script run directly before [preswald.main] was ever imported. *)
Definition unloaded_run : Service.interpreter :=
  Service.Interpreter
    []
    []
    [Service.Frame [("__name__", VStr "preswald.engine.service")]
                   "/lib/preswald/engine/service.py";
     Service.Frame [("__name__", VStr "__main__")] "/home/u/app.py"].

(** The server started through its console script: [preswald.main] is
    loaded and running, and the outermost frame is the launcher. *)
Definition launcher_run : Service.interpreter :=
  Service.Interpreter
    [("preswald.cli", "/lib/preswald/cli.py"); ("preswald.main", "/lib/preswald/main.py")]
    []
    [Service.Frame [("__name__", VStr "preswald.engine.service")]
                   "/lib/preswald/engine/service.py";
     Service.Frame [("__name__", VStr "preswald.main")] "/lib/preswald/main.py";
     Service.Frame [("__name__", VStr "preswald.cli")] "/lib/preswald/cli.py";
     Service.Frame [("__name__", VStr "__main__")] "/usr/bin/preswald"].

(** The server started from its entry file, named by another spelling of
    the same path. *)
Definition respelled_run : Service.interpreter :=
  Service.Interpreter
    [("preswald.main", "/lib/preswald/main.py")]
    []
    [Service.Frame [("__name__", VStr "preswald.engine.service")]
                   "/lib/preswald/engine/service.py";
     Service.Frame [("__name__", VStr "__main__")] "/lib/preswald/./main.py"].

(** An import from an embedding host: no frame is a [__main__] frame, one
    has no [__name__] at all, and [preswald.main] is not loaded. *)
Definition embedded_run : Service.interpreter :=
  Service.Interpreter
    []
    [("PRESWALD_HEADLESS", "true")]
    [Service.Frame [("__name__", VStr "preswald.engine.service")]
                   "/lib/preswald/engine/service.py";
     Service.Frame [] "<string>";
     Service.Frame [("__name__", VStr "host")] "/opt/host/run.py"].

(** ** Further definitions the statements use *)

(** The lines printing a component writes, on an empty console. *)
Definition line_of (component : pyval) : list string :=
  stdout (con (snd (_print_component component (SelfState fresh (Console [] []))))).

(** The lines a call prints. *)
Definition lines_of (c : call) : list string :=
  match c with
  | Append_component component => line_of component
  | _ => []
  end.

(** The history after a sequence of calls, from the history [l]. *)
Definition history_of (cs : list call) (l : list pyval) : list pyval :=
  foldl (fun l c => match c with
                    | Append_component component => l ++ [component]
                    | Clear_components => []
                    | _ => l
                    end) l cs.

(** The error [append_component] logs for [e]. *)
Definition component_error (e : exn) : log_record :=
  Log ERROR ("Error processing component in headless mode: " +:+ str_of_exn e).

(** The record [handle_client_message] logs for a pair of [states]. *)
Definition update_record (kv : string * pyval) : log_record :=
  Log DEBUG ("Updated component state: " +:+ fst kv +:+ " = " +:+ py_str (snd kv)).

(** The attribute error of a value without the attribute [name]. *)
Definition no_attribute (v : pyval) (name : string) : exn :=
  AttributeError ("'" +:+ type_name v +:+ "' object has no attribute '" +:+ name +:+ "'").

(** The data manager [_initialize_data_manager] leaves for a script path,
    and what it adds to the console: the one built from the two paths next
    to the script, or the empty one with the error logged. *)
Definition built_data_manager (DataManager_raises : string -> string -> option exn)
    (path : string) : DataManager :=
  match DataManager_raises (fst (config_paths path)) (snd (config_paths path)) with
  | None => mkDataManager (Some (fst (config_paths path))) (Some (snd (config_paths path)))
  | Some _ => DataManager_empty
  end.

Definition data_manager_console (DataManager_raises : string -> string -> option exn)
    (path : string) (k : console) : console :=
  match DataManager_raises (fst (config_paths path)) (snd (config_paths path)) with
  | None => k
  | Some e => console_log (Log ERROR ("Error initializing data manager: " +:+ str_of_exn e)) k
  end.

(** At most one object exists, the one [_instance] refers to. *)
Definition at_most_one (p : process) : Prop :=
  match _instance p with
  | None => heap p = []
  | Some a => a = 0%nat /\ length (heap p) = 1%nat
  end.

(** An environment where every path exists. *)
Definition everything_exists (path : string) : bool := true.

(** ** [os.path.abspath] (POSIX) *)

(** [s.split('/')]. *)
Fixpoint split_sep (s : string) : list string :=
  match s with
  | EmptyString => [EmptyString]
  | String c s' =>
      if Ascii.eqb c sep then EmptyString :: split_sep s'
      else match split_sep s' with
           | h :: t => String c h :: t
           | [] => [String c EmptyString]
           end
  end.

(** The number of slashes [normpath] keeps in front: two for exactly two,
    one for any other number, none for a relative path. *)
Definition initial_slashes (path : string) : nat :=
  match path with
  | String c1 rest =>
      if Ascii.eqb c1 sep then
        match rest with
        | String c2 rest' =>
            if Ascii.eqb c2 sep then
              match rest' with
              | String c3 _ => if Ascii.eqb c3 sep then 1 else 2
              | EmptyString => 2
              end
            else 1
        | EmptyString => 1
        end
      else 0
  | EmptyString => 0
  end%nat.

(** One turn of the loop of [normpath] over the components. *)
Definition normpath_step (slashes : nat) (new_comps : list string) (comp : string)
  : list string :=
  if String.eqb comp EmptyString || String.eqb comp "." then new_comps
  else if negb (String.eqb comp "..")
          || (Nat.eqb slashes 0 && match new_comps with [] => true | _ => false end)
          || match last new_comps with Some l => String.eqb l ".." | None => false end
       then new_comps ++ [comp]
       else removelast new_comps.

Fixpoint repeat_sep (n : nat) : string :=
  match n with
  | O => EmptyString
  | S n' => String sep (repeat_sep n')
  end.

Definition os_path_normpath (path : string) : string :=
  if String.eqb path EmptyString then "."
  else
    let slashes := initial_slashes path in
    let comps := foldl (normpath_step slashes) [] (split_sep path) in
    let path' := repeat_sep slashes +:+ join "/" comps in
    if String.eqb path' EmptyString then "." else path'.

Definition os_path_abspath (cwd path : string) : string :=
  os_path_normpath (if starts_with_sep path then path else os_path_join cwd path).

(** ** [preswald.interfaces.data]

    The functions [connect], [query] and [get_df], in a process where the
    module [preswald.engine.service] selected [ScriptService]: the facade
    [PreswaldService] forwards [initialize] and [get_instance] to it. *)

Module Data.

(** The process, with the environment variables and the working directory. *)
Record runtime : Type := Runtime {
  rt_process : process;
  rt_environ : list (string * string);
  rt_cwd : string
}.

(** [os.environ[k] = v]. *)
Fixpoint environ_set (k v : string) (l : list (string * string)) : list (string * string) :=
  match l with
  | [] => [(k, v)]
  | (k', v') :: l' =>
      if String.eqb k k' then (k, v) :: l' else (k', v') :: environ_set k v l'
  end.

(** A call of the service module, in the runtime. *)
Definition in_process {A} (m : M process A) : M runtime A :=
  fun rt =>
    match m (rt_process rt) with
    | (r, p') => (r, Runtime p' (rt_environ rt) (rt_cwd rt))
    end.

Definition rt_print (line : string) : M runtime unit :=
  modify (fun rt =>
    Runtime (Process (_instance (rt_process rt)) (heap (rt_process rt))
               (console_print line (proc_console (rt_process rt))))
            (rt_environ rt) (rt_cwd rt)).

Definition rt_logger (l : log_level) (msg : string) : M runtime unit :=
  modify (fun rt =>
    Runtime (Process (_instance (rt_process rt)) (heap (rt_process rt))
               (console_log (Log l msg) (proc_console (rt_process rt))))
            (rt_environ rt) (rt_cwd rt)).

(** [service.data_manager.<name>]: the data manager whose method is about
    to be called, or the AttributeError of None. *)
Definition data_manager_method (service : nat) (name : string) : M runtime DataManager :=
  rt <- get ;;
  match heap (rt_process rt) !! service with
  | Some o =>
      match data_manager o with
      | Some dm => ret dm
      | None => raise (no_attribute VNone name)
      end
  | None => raise ReferenceError
  end.

(** [os.path.abspath(v)] on a value. *)
Definition abspath_value (cwd : string) (v : pyval) : result string :=
  match v with
  | VStr path => Ok (os_path_abspath cwd path)
  | _ => Raise (TypeError ("expected str, bytes or os.PathLike object, not " +:+ type_name v))
  end.

Section Collaborator.

(** What the data manager gives: whether its construction raises, and its
    methods [connect], [query] and [get_df], with the connection and the
    dataframe they return. *)
Variables Conn DataFrame : Type.
Variable DataManager_raises : string -> string -> option exn.
Variable DataManager_connect : DataManager -> result (pyval * Conn).
Variable DataManager_query : DataManager -> string -> string -> result DataFrame.
Variable DataManager_get_df : DataManager -> string -> option string -> result DataFrame.

(** The facade. *)
Definition PreswaldService_initialize (script_path : option string) : M runtime nat :=
  in_process (initialize DataManager_raises script_path).

Definition PreswaldService_get_instance : M runtime nat :=
  in_process get_instance.

(** The first statement of [connect]: the variable is set and the banner
    printed when [headless] is asked for. *)
Definition set_headless (headless : bool) : M runtime unit :=
  if headless then
    modify (fun rt => Runtime (rt_process rt)
                        (environ_set "PRESWALD_HEADLESS" "1" (rt_environ rt)) (rt_cwd rt)) ;;
    rt_print "[Preswald] Running in headless mode (console output)"
  else ret tt.

(** The service [connect] works on: initialised from the script path of the
    environment or from the file of the caller in headless mode, the
    existing instance otherwise. *)
Definition connect_service (caller_globals : pydict) : M runtime nat :=
  rt <- get ;;
  if match Service.assoc "PRESWALD_HEADLESS" (rt_environ rt) with
     | Some v => String.eqb v "1"
     | None => false
     end
  then
    match given (Service.assoc "PRESWALD_SCRIPT_PATH" (rt_environ rt)) with
    | Some script_path => PreswaldService_initialize (Some script_path)
    | None =>
        let caller_file := dict_get_default "__file__" VNone caller_globals in
        if truthy caller_file then
          path <- lift_result (abspath_value (rt_cwd rt) caller_file) ;;
          PreswaldService_initialize (Some path)
        else PreswaldService_get_instance
    end
  else PreswaldService_get_instance.

(** [connect(headless)], called from a module with the globals
    [caller_globals]. *)
Definition connect (headless : bool) (caller_globals : pydict) : M runtime (option Conn) :=
  set_headless headless ;;
  try_except
    (service <- connect_service caller_globals ;;
     dm <- data_manager_method service "connect" ;;
     r <- lift_result (DataManager_connect dm) ;;
     match r with
     | (source_names, duckdb_conn) =>
         rt_logger INFO ("Successfully connected to data sources: " +:+ py_str source_names) ;;
         ret (Some duckdb_conn)
     end)
    (fun e =>
       rt_logger ERROR ("Error connecting to datasources: " +:+ str_of_exn e) ;;
       ret None).

Definition query (sql source_name : string) : M runtime (option DataFrame) :=
  try_except
    (service <- PreswaldService_get_instance ;;
     dm <- data_manager_method service "query" ;;
     df_result <- lift_result (DataManager_query dm sql source_name) ;;
     rt_logger INFO ("Successfully queried data source: " +:+ source_name) ;;
     ret (Some df_result))
    (fun e =>
       rt_logger ERROR ("Error querying data source: " +:+ str_of_exn e) ;;
       ret None).

Definition get_df (source_name : string) (table_name : option string)
  : M runtime (option DataFrame) :=
  try_except
    (service <- PreswaldService_get_instance ;;
     dm <- data_manager_method service "get_df" ;;
     df_result <- lift_result (DataManager_get_df dm source_name table_name) ;;
     rt_logger INFO ("Successfully got a dataframe from data source: " +:+ source_name) ;;
     ret (Some df_result))
    (fun e =>
       rt_logger ERROR ("Error getting a dataframe from data source: " +:+ str_of_exn e) ;;
       ret None).

End Collaborator.

(** The runtime at the start of the process, in [/home/u]. *)
Definition runtime_start : runtime := Runtime process_start [] "/home/u".

(** The console of a runtime with one more log record. *)
Definition logged (l : log_level) (msg : string) (rt : runtime) : runtime :=
  Runtime (Process (_instance (rt_process rt)) (heap (rt_process rt))
             (console_log (Log l msg) (proc_console (rt_process rt))))
          (rt_environ rt) (rt_cwd rt).

End Data.

(** [os.environ.get("PRESWALD_HEADLESS") == "1"], in a runtime. *)
Definition headless_env (rt : Data.runtime) : bool :=
  match Service.assoc "PRESWALD_HEADLESS" (Data.rt_environ rt) with
  | Some v => String.eqb v "1"
  | None => false
  end.

(** The file of the caller, when it has one, is a string. *)
Definition caller_file_is_str (caller_globals : pydict) : Prop :=
  truthy (dict_get_default "__file__" VNone caller_globals) = true ->
  exists file, dict_get_default "__file__" VNone caller_globals = VStr file.

(** What a call returns on the data manager of the singleton: nothing
    without a data manager or when the method raises, else its result. *)
Definition on_data_manager {A B} (dm : option DataManager) (method : DataManager -> result A)
    (f : A -> B) : option B :=
  match dm with
  | Some d => match method d with Ok a => Some (f a) | Raise _ => None end
  | None => None
  end.

(** The line [connect] prints when headless mode is asked for. *)
Definition headless_banner : string := "[Preswald] Running in headless mode (console output)".

(** The log level that goes with a result: INFO with a value, ERROR with None. *)
Definition level_of {A} (r : option A) : log_level :=
  match r with Some _ => INFO | None => ERROR end.

(** A data manager that connects, and queries that answer with a number. *)
Definition connects (dm : DataManager) : result (pyval * nat) :=
  Ok (VList [VStr "sales"], 7%nat).
Definition answers (dm : DataManager) (sql source_name : string) : result nat := Ok 42%nat.
Definition gets (dm : DataManager) (source_name : string) (table_name : option string)
  : result nat := Raise (KeyError source_name).

(** A runtime with the singleton initialised without a script path. *)
Definition runtime_initialized : Data.runtime :=
  Data.Runtime (snd (initialize never_raises None process_start)) [] "/home/u".

(** A runtime whose environment names a script. *)
Definition runtime_with_script : Data.runtime :=
  Data.Runtime process_start [("PRESWALD_SCRIPT_PATH", "/srv/app/hello.py")] "/home/u".

(** * Properties *)

(** ** Values and paths *)

Example py_str_examples :
  py_str (VInt 5) = "5" /\ py_str (VInt (-12)) = "-12" /\ py_str (VInt 0) = "0" /\
  py_str (VList [VInt 1; VStr "a'b"; VNone])
  = "[1, " +:+ String dquote "a'b" +:+ String dquote ", None]" /\
  py_str (VDict [("k", VBool true)]) = "{'k': True}".
Proof. repeat split; reflexivity. Qed.

Example os_path_examples :
  os_path_dirname "/home/u/app/hello.py" = "/home/u/app" /\
  os_path_dirname "hello.py" = EmptyString /\
  os_path_dirname "/hello.py" = "/" /\
  os_path_dirname "a//b" = "a" /\
  os_path_join "/home/u/app" "preswald.toml" = "/home/u/app/preswald.toml" /\
  os_path_join EmptyString "secrets.toml" = "secrets.toml" /\
  os_path_join "/" "secrets.toml" = "/secrets.toml".
Proof. repeat split; reflexivity. Qed.

Example py_len_code_points :
  py_len (VStr "abc") = Ok 3%Z /\ py_len (VStr "é") = Ok 1%Z /\
  py_len (VStr "✓✗") = Ok 2%Z /\ py_len (VStr EmptyString) = Ok 0%Z.
Proof. repeat split; reflexivity. Qed.

(** ** Printing *)

(** Printing writes to the console only. *)
Lemma _print_component_self (c : pyval) (s : self_state) :
  self (snd (_print_component c s)) = self s.
Proof.
  destruct c; try reflexivity.
  unfold _print_component.
  repeat match goal with |- context [if ?b then _ else _] => destruct b end;
    try reflexivity.
  unfold bind, lift_result. destruct (py_len _); reflexivity.
Qed.

(** Printing never touches the log. *)
Lemma _print_component_log (c : pyval) (s : self_state) :
  log (con (snd (_print_component c s))) = log (con s).
Proof.
  destruct c; try reflexivity.
  unfold _print_component.
  repeat match goal with |- context [if ?b then _ else _] => destruct b end;
    try reflexivity.
  unfold bind, lift_result. destruct (py_len _); reflexivity.
Qed.



(** C6. Headless formatting is exact: the slider [{type: slider, label:
    Speed, value: 5}] prints the one line [[slider] Speed: 5], the table
    [{type: table, title: Results, data: [1,2,3]}] prints the one line
    [[table] Results (3 rows)], and for every table the line is made of the
    title and the number of rows only, whatever the rows hold. *)
Theorem print_component_exact :
  (forall s, _print_component slider_Speed s = (Ok tt, printed "[slider] Speed: 5" s)) /\
  (forall s, _print_component table_Results s = (Ok tt, printed "[table] Results (3 rows)" s)) /\
  (forall s,
      stdout (con (snd (append_component slider_Speed s)))
      = (stdout (con s) ++ ["[slider] Speed: 5"])%list /\
      stdout (con (snd (append_component table_Results s)))
      = (stdout (con s) ++ ["[table] Results (3 rows)"])%list) /\
  (forall (title : string) (rows : list pyval) (rest : pydict) s,
      _print_component
        (VDict (("type", VStr "table") :: ("title", VStr title)
                  :: ("data", VList rows) :: rest)) s
      = (Ok tt, printed ("[table] " +:+ title +:+ " (" +:+
                         str_of_Z (Z.of_nat (length rows)) +:+ " rows)") s)).
Proof.
  repeat split; intros; reflexivity.
Qed.

(** ** Appending a component *)

(** The first two steps of [append_component]: the component is recorded,
    then printed; the object is as recorded whatever printing did. *)
Lemma append_then_print_self (c : pyval) (s : self_state) :
  self (snd (_print_component c
               (SelfState (set_rendered_components (fun l => (l ++ [c])%list) (self s)) (con s))))
  = set_rendered_components (fun l => (l ++ [c])%list) (self s).
Proof. now rewrite _print_component_self. Qed.

(** The state update of a component without [id] or [value] does nothing. *)
Lemma update_component_state_lacking (c : pyval) (s : self_state) :
  lacks_id_or_value c -> update_component_state c s = (Ok tt, s).
Proof.
  destruct c; try reflexivity.
  cbn. unfold dict_has. intros [-> | ->]; [reflexivity|].
  destruct (dict_get "id" d); reflexivity.
Qed.

(** [append_component] never raises. *)
Lemma append_component_ok (c : pyval) (s : self_state) :
  fst (append_component c s) = Ok tt.
Proof.
  unfold append_component, try_except, bind, update_self, modify, logger.
  destruct (_print_component c _) as [[[]|e] s2]; [|reflexivity].
  destruct (update_component_state c s2) as [[[]|e] s3]; reflexivity.
Qed.

(** C5. A component without [id] or without [value], or one that is no
    mapping, leaves the state store as it was, and is still appended to the
    history that [get_rendered_components] returns under [rows]. *)
Theorem append_component_lacking_id_or_value (component : pyval) (s : self_state) :
  lacks_id_or_value component ->
  exists s',
    append_component component s = (Ok tt, s') /\
    _component_states (self s') = _component_states (self s) /\
    _rendered_components (self s') = (_rendered_components (self s) ++ [component])%list /\
    get_rendered_components s'
    = (Ok (VDict [("rows", VList (_rendered_components (self s) ++ [component]))]), s').
Proof.
  intros Hlack.
  pose proof (append_then_print_self component s) as Hself.
  unfold append_component, try_except, bind, update_self, modify, logger.
  cbn [fst snd self con].
  destruct (_print_component component _) as [[[]|e] s2]; cbn [snd] in Hself.
  - rewrite (update_component_state_lacking _ _ Hlack).
    exists s2. unfold get_rendered_components, bind, get, ret.
    rewrite Hself. repeat split; reflexivity.
  - eexists. split; [reflexivity|].
    unfold get_rendered_components, bind, get, ret. cbn [self].
    rewrite Hself. repeat split; reflexivity.
Qed.

Lemma append_component_lacking_id_or_value_witness :
  lacks_id_or_value (VDict [("type", VStr "text"); ("markdown", VStr "hello")]) /\
  exists s',
    append_component (VDict [("type", VStr "text"); ("markdown", VStr "hello")])
      (__init__ (Console [] [])) = (Ok tt, s') /\
    _component_states (self s') = _component_states (self (__init__ (Console [] []))) /\
    _rendered_components (self s')
    = (_rendered_components (self (__init__ (Console [] [])))
         ++ [VDict [("type", VStr "text"); ("markdown", VStr "hello")]])%list /\
    get_rendered_components s'
    = (Ok (VDict [("rows",
                   VList (_rendered_components (self (__init__ (Console [] [])))
                            ++ [VDict [("type", VStr "text"); ("markdown", VStr "hello")]]))]),
       s').
Proof.
  split.
  - right. reflexivity.
  - apply (append_component_lacking_id_or_value
             (VDict [("type", VStr "text"); ("markdown", VStr "hello")])
             (__init__ (Console [] []))).
    right. reflexivity.
Defined.

(** ** Reading the state store *)

Lemma get_component_state_fst (component_id : string) (default : pyval) (s : self_state) :
  fst (get_component_state component_id default s)
  = Ok (read (_component_states (self s)) component_id default).
Proof. reflexivity. Qed.

(** Reading changes nothing in the object. *)
Lemma get_component_state_self (component_id : string) (default : pyval) (s : self_state) :
  self (snd (get_component_state component_id default s)) = self s.
Proof. reflexivity. Qed.

(** ** Client messages *)

Lemma upsert_all_cons (k : string) (v : pyval) (states : pydict) (m : gmap key pyval) :
  upsert_all ((k, v) :: states) m = upsert_all states (<[KStr k := v]> m).
Proof. reflexivity. Qed.

Lemma upsert_all_other (states : pydict) (m : gmap key pyval) (k : key) :
  (forall c, k = KStr c -> c ∉ dict_keys states) ->
  upsert_all states m !! k = m !! k.
Proof.
  revert m. induction states as [|[k0 v0] states IH]; intros m Hk; [reflexivity|].
  rewrite upsert_all_cons, IH.
  - apply lookup_insert_ne. intros <-. apply (Hk k0 eq_refl). now left.
  - intros c -> Hin. apply (Hk c eq_refl). now right.
Qed.

Lemma upsert_all_written (states : pydict) (m : gmap key pyval) (k : string) (v : pyval) :
  dict_wf states -> (k, v) ∈ states -> upsert_all states m !! KStr k = Some v.
Proof.
  unfold dict_wf. revert m.
  induction states as [|[k0 v0] states IH]; intros m Hwf Hin.
  - inversion Hin.
  - cbn in Hwf. apply NoDup_cons in Hwf as [Hfresh Hwf].
    rewrite upsert_all_cons.
    apply elem_of_cons in Hin as [Heq | Hin].
    + injection Heq as -> ->.
      rewrite upsert_all_other by (intros c [= <-]; exact Hfresh).
      apply lookup_insert_eq.
    + now apply IH.
Qed.

(** The loop of [handle_client_message] writes the pairs in order, and logs. *)
Lemma handle_loop (states : pydict) (s : self_state) :
  exists c',
    for_each states (fun kv =>
      match kv with
      | (component_id, value) =>
          update_self (set_component_states (fun m => <[KStr component_id := value]> m)) ;;
          logger DEBUG ("Updated component state: " +:+ component_id +:+ " = " +:+ py_str value)
      end) s
    = (Ok tt, SelfState (set_component_states (upsert_all states) (self s)) c') /\
    stdout c' = stdout (con s).
Proof.
  revert s. induction states as [|[k v] states IH]; intros s.
  - exists (con s). destruct s as [[] c]. split; reflexivity.
  - destruct (IH (SelfState (set_component_states (fun m => <[KStr k := v]> m) (self s))
                    (console_log (Log DEBUG ("Updated component state: " +:+ k +:+ " = "
                                              +:+ py_str v)) (con s))))
      as (c' & Hrun & Hout).
    exists c'. split; [|exact Hout].
    cbn [for_each]. unfold bind at 1.
    replace ((update_self (set_component_states (fun m => <[KStr k := v]> m)) ;;
              logger DEBUG ("Updated component state: " +:+ k +:+ " = " +:+ py_str v)) s)
      with (Ok tt, SelfState (set_component_states (fun m => <[KStr k := v]> m) (self s))
                     (console_log (Log DEBUG ("Updated component state: " +:+ k +:+ " = "
                                               +:+ py_str v)) (con s)))
      by reflexivity.
    rewrite Hrun. reflexivity.
Qed.

(** C4. A message of type [component_update] upserts every pair of its
    [states] mapping into the state store, so that [get_component_state]
    returns those values afterwards and the other identifiers keep theirs;
    a message of any other type, or without a type, leaves the object and
    the console exactly as they were; neither raises. *)
Theorem handle_client_message_upserts
    (client_id : string) (message : pydict) (s : self_state) :
  (forall states,
      dict_get "type" message = Some (VStr "component_update") ->
      dict_get_default "states" (VDict []) message = VDict states ->
      dict_wf states ->
      exists s',
        handle_client_message client_id message s = (Ok tt, s') /\
        (forall k v default,
            (k, v) ∈ states -> fst (get_component_state k default s') = Ok v) /\
        (forall k default,
            k ∉ dict_keys states ->
            fst (get_component_state k default s') = fst (get_component_state k default s)) /\
        _rendered_components (self s') = _rendered_components (self s)) /\
  (dict_get "type" message <> Some (VStr "component_update") ->
   handle_client_message client_id message s = (Ok tt, s)).
Proof.
  split.
  - intros states Htype Hstates Hwf.
    unfold handle_client_message, dict_get_default at 1. rewrite Htype.
    cbn [eq_str]. rewrite String.eqb_refl, Hstates.
    unfold bind at 1. cbn [lift_result items].
    destruct (handle_loop states s) as (c' & -> & _).
    eexists. split; [reflexivity|].
    destruct s as [[] c]. repeat split.
    + intros k v default Hin. rewrite get_component_state_fst. unfold read. cbn.
      now rewrite (upsert_all_written _ _ _ _ Hwf Hin).
    + intros k default Hk. rewrite !get_component_state_fst. unfold read. cbn.
      rewrite upsert_all_other; [reflexivity|]. now intros c0 [= <-].
  - intros Htype. unfold handle_client_message, dict_get_default.
    destruct (dict_get "type" message) as [[| | |t| |]|]; try reflexivity.
    cbn [eq_str]. destruct (String.eqb_spec t "component_update") as [->|]; [|reflexivity].
    now destruct Htype.
Qed.

Lemma handle_client_message_upserts_witness :
  ((dict_get "type" update_a_b = Some (VStr "component_update") /\
    dict_get_default "states" (VDict []) update_a_b = VDict [("a", VInt 1); ("b", VInt 2)] /\
    dict_wf [("a", VInt 1); ("b", VInt 2)]) /\
   exists s',
     handle_client_message "client" update_a_b (__init__ (Console [] [])) = (Ok tt, s') /\
     fst (get_component_state "a" VNone s') = Ok (VInt 1) /\
     fst (get_component_state "b" VNone s') = Ok (VInt 2)) /\
  (dict_get "type" [("type", VStr "ping"); ("states", VDict [("a", VInt 1)])]
   <> Some (VStr "component_update") /\
   handle_client_message "client"
     [("type", VStr "ping"); ("states", VDict [("a", VInt 1)])] (__init__ (Console [] []))
   = (Ok tt, __init__ (Console [] []))).
Proof.
  assert (Hwf : dict_wf [("a", VInt 1); ("b", VInt 2)]).
  { unfold dict_wf. cbn. apply NoDup_cons. split; [now intros [=]%list_elem_of_singleton|].
    apply NoDup_singleton. }
  split.
  - split; [split; [reflexivity | split; [reflexivity | exact Hwf]] |].
    destruct (proj1 (handle_client_message_upserts "client" update_a_b
                       (__init__ (Console [] [])))
                [("a", VInt 1); ("b", VInt 2)] eq_refl eq_refl Hwf)
      as (s' & Hrun & Hwritten & _).
    exists s'. split; [exact Hrun|].
    split; apply Hwritten; [left | right; left].
  - split; [discriminate|].
    apply (proj2 (handle_client_message_upserts "client"
                    [("type", VStr "ping"); ("states", VDict [("a", VInt 1)])]
                    (__init__ (Console [] [])))).
    discriminate.
Defined.

(** A [component_update] whose [states] is no mapping raises, the store
    untouched. *)
Lemma handle_client_message_states_no_mapping
    (client_id : string) (message : pydict) (s : self_state) (v : pyval) :
  dict_get "type" message = Some (VStr "component_update") ->
  dict_get "states" message = Some v ->
  (forall states, v <> VDict states) ->
  handle_client_message client_id message s
  = (Raise (AttributeError ("'" +:+ type_name v +:+ "' object has no attribute 'items'")), s).
Proof.
  intros Htype Hstates Hno.
  unfold handle_client_message, dict_get_default. rewrite Htype, Hstates.
  cbn [eq_str]. rewrite String.eqb_refl.
  destruct v; try reflexivity. now destruct (Hno d).
Qed.

(** ** The state store over sequences of calls *)

Lemma print_component_result (c : pyval) (s : self_state) :
  if printable c
  then fst (_print_component c s) = Ok tt
  else exists e, fst (_print_component c s) = Raise e.
Proof.
  destruct c; try reflexivity.
  unfold printable, _print_component.
  destruct (dict_get_default "type" VNone d) as [| | |t| |]; try reflexivity.
  cbn [eq_str].
  destruct (String.eqb_spec t "table") as [->|Hne].
  - cbn. unfold bind, lift_result.
    destruct (py_len _); [reflexivity | eexists; reflexivity].
  - repeat match goal with |- context [if String.eqb t ?x then _ else _] =>
             destruct (String.eqb t x) end; reflexivity.
Qed.

Lemma apply_writes_app (t1 t2 : list (key * pyval)) (m : gmap key pyval) :
  apply_writes (t1 ++ t2) m = apply_writes t2 (apply_writes t1 m).
Proof. apply foldl_app. Qed.

Lemma apply_writes_states (states : pydict) (m : gmap key pyval) :
  apply_writes (map (fun kv => (KStr (fst kv), snd kv)) states) m = upsert_all states m.
Proof.
  revert m. induction states as [|kv states IH]; intros m; [reflexivity|].
  cbn. apply IH.
Qed.

Lemma lookup_apply_writes (t : list (key * pyval)) (m : gmap key pyval) (k : key) :
  apply_writes t m !! k
  = match last_write k t with Some v => Some v | None => m !! k end.
Proof.
  revert m. induction t as [|[k' v] t IH]; intros m; [reflexivity|].
  cbn [apply_writes foldl last_write fst snd].
  fold (apply_writes t (<[k' := v]> m)). rewrite IH.
  destruct (last_write k t); [reflexivity|].
  destruct (decide (k = k')) as [->|Hne].
  - apply lookup_insert_eq.
  - apply lookup_insert_ne. congruence.
Qed.

Lemma last_write_elem (t : list (key * pyval)) (k : key) (v : pyval) :
  last_write k t = Some v -> (k, v) ∈ t.
Proof.
  induction t as [|[k' v'] t IH]; cbn; [discriminate|].
  destruct (last_write k t).
  - intros [= ->]. right. now apply IH.
  - destruct (decide (k = k')) as [->|]; [|discriminate].
    intros [= ->]. left.
Qed.

(** What [append_component] does to the object: the component joins the
    history, and the store takes the pair the call writes, if any. *)
Lemma append_component_self (c : pyval) (s : self_state) :
  self (snd (append_component c s))
  = set_component_states (apply_writes (writes_of (Append_component c)))
      (set_rendered_components (fun l => l ++ [c]) (self s)).
Proof.
  pose proof (append_then_print_self c s) as Hself.
  pose proof (print_component_result c
                (SelfState (set_rendered_components (fun l => l ++ [c]) (self s))
                           (con s))) as Hres.
  unfold append_component, try_except, bind, update_self, modify, logger.
  cbn [fst snd self con].
  destruct (_print_component c _) as [r s2]; cbn [fst snd] in Hself, Hres.
  destruct c;
    try (destruct r as [[]|e]; cbn; rewrite Hself; destruct s as [[] ?]; reflexivity).
  cbn [writes_of update_component_state]. unfold dict_has, dict_item.
  destruct (dict_get "id" d) as [i|], (dict_get "value" d) as [v|];
    cbn [andb];
    try (destruct r as [[]|e]; cbn; rewrite Hself; destruct s as [[] ?]; reflexivity).
  destruct (printable (VDict d)).
  - rewrite Hres. unfold bind, lift_result, store_set, bind, lift_result, update_self, modify.
    destruct (hash_key i) as [k|e]; cbn; rewrite Hself; destruct s as [[] ?]; reflexivity.
  - destruct Hres as [e ->]. cbn. rewrite Hself. destruct s as [[] ?]; reflexivity.
Qed.

(** Every appended component joins the history, at its end. *)
Lemma append_component_rendered (c : pyval) (s : self_state) :
  _rendered_components (self (snd (append_component c s)))
  = _rendered_components (self s) ++ [c].
Proof. now rewrite append_component_self. Qed.

(** What [append_component] does to the store. *)
Lemma append_component_store (c : pyval) (s : self_state) :
  _component_states (self (snd (append_component c s)))
  = apply_writes (writes_of (Append_component c)) (_component_states (self s)).
Proof. now rewrite append_component_self. Qed.

(** What [handle_client_message] does to the store. *)
Lemma handle_client_message_store (client_id : string) (message : pydict) (s : self_state) :
  _component_states (self (snd (handle_client_message client_id message s)))
  = apply_writes (writes_of (Handle_client_message client_id message))
      (_component_states (self s)).
Proof.
  unfold handle_client_message, writes_of, dict_get_default at 1.
  destruct (dict_get "type" message) as [[| | |t| |]|]; try reflexivity.
  cbn [eq_str]. destruct (String.eqb t "component_update").
  - destruct (dict_get_default "states" (VDict []) message) as [| | | | |states];
      try reflexivity.
    unfold bind at 1. cbn [lift_result items].
    destruct (handle_loop states s) as (c' & -> & _).
    rewrite apply_writes_states. destruct s as [[] ?]. reflexivity.
  - destruct (dict_get_default "states" (VDict []) message); reflexivity.
Qed.

(** Every call changes the store by the pairs it writes, and by nothing else. *)
Lemma exec_store (c : call) (s : self_state) :
  _component_states (self (exec c s))
  = apply_writes (writes_of c) (_component_states (self s)).
Proof.
  destruct c; try (destruct s as [[] ?]; reflexivity).
  - apply append_component_store.
  - apply handle_client_message_store.
Qed.

Lemma run_store (cs : list call) (s : self_state) :
  _component_states (self (run cs s))
  = apply_writes (trace cs) (_component_states (self s)).
Proof.
  revert s. induction cs as [|c cs IH]; intros s; [reflexivity|].
  unfold run, trace. cbn [foldl map concat]. rewrite apply_writes_app.
  fold (run cs (exec c s)). rewrite IH, exec_store. reflexivity.
Qed.

(** The pair an appended component writes: its [id] and [value], for a
    string [id] and a component that prints. *)
Lemma writes_of_append_component (d : pydict) (i : string) (v : pyval) :
  dict_get "id" d = Some (VStr i) ->
  dict_get "value" d = Some v ->
  printable (VDict d) = true ->
  writes_of (Append_component (VDict d)) = [(KStr i, v)].
Proof. intros Hid Hval Hprint. cbn [writes_of]. now rewrite Hid, Hval, Hprint. Qed.

(** The pairs a [component_update] writes: those of its [states]. *)
Lemma writes_of_component_update (client_id : string) (message states : pydict) :
  dict_get "type" message = Some (VStr "component_update") ->
  dict_get_default "states" (VDict []) message = VDict states ->
  writes_of (Handle_client_message client_id message)
  = map (fun kv => (KStr (fst kv), snd kv)) states.
Proof. intros Htype Hstates. cbn [writes_of]. now rewrite Htype, Hstates. Qed.

(** C1. After any sequence of calls on a fresh service object,
    [get_component_state id default] returns, without raising, the value
    most recently written for [id], or [default] when none was written for
    it; what it returns is [default] or a value written for [id] itself. *)
Theorem get_component_state_last_write
    (cs : list call) (component_id : string) (default : pyval) (c : console) :
  fst (get_component_state component_id default (run cs (__init__ c)))
  = Ok match last_write (KStr component_id) (trace cs) with
       | Some v => v
       | None => default
       end /\
  (forall v,
      fst (get_component_state component_id default (run cs (__init__ c))) = Ok v ->
      v = default \/ (KStr component_id, v) ∈ trace cs).
Proof.
  assert (Hget :
    fst (get_component_state component_id default (run cs (__init__ c)))
    = Ok match last_write (KStr component_id) (trace cs) with
         | Some v => v
         | None => default
         end).
  { rewrite get_component_state_fst. unfold read.
    rewrite run_store, lookup_apply_writes.
    destruct (last_write _ _); reflexivity. }
  split; [exact Hget|].
  intros v. rewrite Hget. intros [= <-].
  destruct (last_write _ _) eqn:Hlast; [right | now left].
  now apply last_write_elem.
Qed.

Example state_store_example :
  let cs :=
    [Append_component (VDict [("type", VStr "slider"); ("id", VStr "s1"); ("value", VInt 5)]);
     Handle_client_message "c" [("type", VStr "component_update");
                                ("states", VDict [("s1", VInt 7); ("b", VInt 2)])];
     Append_component (VDict [("type", VStr "slider"); ("id", VStr "s1"); ("value", VInt 9)]);
     Append_component (VDict [("type", VStr "text"); ("id", VStr "b")]);
     Append_component (VDict [("type", VStr "table"); ("data", VInt 3);
                              ("id", VStr "t"); ("value", VInt 1)]);
     Clear_components; Shutdown] in
  let s := run cs (__init__ (Console [] [])) in
  fst (get_component_state "s1" VNone s) = Ok (VInt 9) /\
  fst (get_component_state "b" VNone s) = Ok (VInt 2) /\
  fst (get_component_state "t" (VInt 0) s) = Ok (VInt 0) /\
  fst (get_component_state "other" (VStr "d") s) = Ok (VStr "d").
Proof. repeat split; vm_compute; reflexivity. Qed.

(** ** Shutdown *)

(** The claim that two calls of [shutdown] log the event at most once fails
    on a fresh object: the log holds it twice. *)
Lemma shutdown_twice_logs_twice :
  ~ (shutdown_events (con (snd (shutdown_twice (__init__ (Console [] [])))))
     <= shutdown_events (con (__init__ (Console [] []))) + 1)%nat.
Proof. vm_compute. lia. Qed.

Lemma shutdown_events_app (c : console) (rs : list log_record) :
  shutdown_events (Console (stdout c) (log c ++ rs))
  = (shutdown_events c + length (filter (fun r => is_shutdown_event r = true) rs))%nat.
Proof. unfold shutdown_events. cbn [log]. now rewrite filter_app, length_app. Qed.

(** C9, amended. Two calls of [shutdown] in a row do not raise and leave the
    object shutting down, the rest of it and the standard output as they
    were; each call logs the shutdown event, which makes two of them. *)
Theorem shutdown_twice_logs_each_call (s : self_state) :
  shutdown_twice s
  = (Ok tt,
     SelfState (set_is_shutting_down true (self s))
               (Console (stdout (con s)) (log (con s) ++ [shutdown_event; shutdown_event]))) /\
  _is_shutting_down (self (snd (shutdown_twice s))) = true /\
  shutdown_events (con (snd (shutdown_twice s))) = (shutdown_events (con s) + 2)%nat.
Proof.
  assert (Hrun : shutdown_twice s
    = (Ok tt,
       SelfState (set_is_shutting_down true (self s))
                 (Console (stdout (con s)) (log (con s) ++ [shutdown_event; shutdown_event])))).
  { destruct s as [[] [out lg]]. unfold shutdown_twice, shutdown, bind, update_self,
      logger, modify, console_log, set_is_shutting_down. cbn.
    now rewrite <- app_assoc. }
  rewrite Hrun. repeat split. cbn [snd con]. apply shutdown_events_app.
Qed.

(** ** The environment detector *)

Import Service.

(** With the server entry loaded, the walk answers whether some frame is
    that of a script run directly. *)
Lemma walk_script_frame (i : interpreter) (file : string) (frames : list frame) (c : console) :
  main_file i = Ok file ->
  fst (walk i frames c) = Ok (existsb (script_frame file) frames).
Proof.
  intros Hfile. induction frames as [|f f_back IH]; [reflexivity|].
  cbn [walk existsb]. unfold script_frame at 1.
  destruct (is_main f); [|exact IH].
  rewrite Hfile. unfold bind at 1. cbn [lift_result andb].
  destruct (negb (String.eqb (co_filename f) file)); [reflexivity | exact IH].
Qed.

(** Without a [__main__] frame the walk finds nothing, and reads neither
    file names nor the loaded modules. *)
Lemma walk_no_main (i : interpreter) (frames : list frame) (c : console) :
  existsb is_main frames = false -> walk i frames c = (Ok false, c).
Proof.
  induction frames as [|f f_back IH]; [reflexivity|].
  cbn [walk existsb]. destruct (is_main f); [discriminate | exact IH].
Qed.

(** The walk stops at the innermost script frame: the frames outside it are
    not looked at. *)
Lemma walk_innermost (i : interpreter) (file : string) (inner outer : list frame)
    (f : frame) (c : console) :
  main_file i = Ok file ->
  existsb (script_frame file) inner = false ->
  script_frame file f = true ->
  walk i (inner ++ f :: outer) c
  = (Ok true,
     console_log (Log INFO "Detected direct script execution, setting headless mode") c).
Proof.
  intros Hfile Hinner Hf. induction inner as [|g inner IH].
  - cbn [app walk]. unfold script_frame in Hf.
    apply andb_prop in Hf as [-> Hdiff].
    rewrite Hfile. unfold bind at 1. cbn [lift_result]. rewrite Hdiff. reflexivity.
  - cbn [existsb] in Hinner. apply orb_false_elim in Hinner as [Hg Hinner].
    cbn [app walk]. unfold script_frame in Hg.
    destruct (is_main g); [|exact (IH Hinner)].
    rewrite Hfile. unfold bind at 1. cbn [lift_result].
    cbn [andb] in Hg. rewrite Hg. exact (IH Hinner).
Qed.

(** When the server entry is not loaded, reaching a [__main__] frame raises. *)
Lemma walk_main_not_loaded (i : interpreter) (f : frame) (f_back : list frame) (c : console) :
  main_file i = Raise (KeyError "preswald.main") ->
  is_main f = true ->
  walk i (f :: f_back) c = (Raise (KeyError "preswald.main"), c).
Proof. intros Hfile Hmain. cbn [walk]. rewrite Hmain, Hfile. reflexivity. Qed.

(** The claim that every ambiguous case is classified Server fails: with
    the server started through its console script, [preswald.main] loaded
    and running, the launcher is a [__main__] frame of another file, and
    the module body selects the script service. *)
Lemma classify_launcher_headless :
  fst (classify launcher_run (Console [] [])) = Ok Headless /\
  fst (classify launcher_run (Console [] [])) <> Ok Server.
Proof. split; [reflexivity | discriminate]. Qed.

(** The same holds for the server entry file itself under another spelling
    of its path: the file names are compared as strings. *)
Example classify_respelled_headless :
  fst (classify respelled_run (Console [] [])) = Ok Headless.
Proof. reflexivity. Qed.

(** C3, amended. The classification follows the priority order: the browser
    marker gives Virtual whatever the headless signals are; otherwise the
    environment variable gives Headless without the stack being read;
    otherwise, with [preswald.main] loaded, the stack decides, from the
    innermost frame outwards, and the result is Headless exactly when some
    frame is a [__main__] frame whose file name differs, as a string, from
    the file of [preswald.main]; the result is Server only when there is no
    such frame (no [__main__] frame at all, or none whose file name
    differs). *)
Theorem classify_priority (i : interpreter) (c : console) :
  (IS_PYODIDE i = true -> fst (classify i c) = Ok Virtual) /\
  (IS_PYODIDE i = false -> env_headless i = true -> fst (classify i c) = Ok Headless) /\
  (forall file,
      IS_PYODIDE i = false -> env_headless i = false -> main_file i = Ok file ->
      fst (classify i c)
      = Ok (if existsb (script_frame file) (stack i) then Headless else Server)) /\
  (forall file inner f outer,
      IS_PYODIDE i = false -> env_headless i = false -> main_file i = Ok file ->
      stack i = inner ++ f :: outer ->
      existsb (script_frame file) inner = false -> script_frame file f = true ->
      classify i c
      = (Ok Headless,
         console_log (Log INFO "Using ScriptService (Headless mode)")
           (console_log (Log INFO "Detected direct script execution, setting headless mode")
              c))) /\
  (IS_PYODIDE i = false -> env_headless i = false ->
   existsb is_main (stack i) = false ->
   fst (classify i c) = Ok Server).
Proof.
  unfold classify, IS_HEADLESS. repeat split.
  - intros ->. rewrite andb_false_r. reflexivity.
  - intros -> ->. reflexivity.
  - intros file -> -> Hfile. cbn [negb andb]. unfold bind at 1.
    pose proof (walk_script_frame i file (stack i) c Hfile) as Hwalk.
    destruct (walk i (stack i) c) as [r c']. cbn [fst] in Hwalk. subst r.
    destruct (existsb _ _); reflexivity.
  - intros file inner f outer -> -> Hfile -> Hinner Hf.
    cbn [negb andb]. unfold bind at 1.
    now rewrite (walk_innermost i file inner outer f c Hfile Hinner Hf).
  - intros -> -> Hnone. cbn [negb andb]. unfold bind at 1.
    rewrite (walk_no_main _ _ _ Hnone). reflexivity.
Qed.

Lemma classify_priority_witness :
  (IS_PYODIDE browser_run = true /\
   fst (classify browser_run (Console [] [])) = Ok Virtual) /\
  (IS_PYODIDE headless_run = false /\ env_headless headless_run = true /\
   fst (classify headless_run (Console [] [])) = Ok Headless) /\
  (IS_PYODIDE direct_run = false /\ env_headless direct_run = false /\
   main_file direct_run = Ok "/lib/preswald/main.py" /\
   fst (classify direct_run (Console [] [])) = Ok Headless) /\
  (IS_PYODIDE server_run = false /\ env_headless server_run = false /\
   main_file server_run = Ok "/lib/preswald/main.py" /\
   fst (classify server_run (Console [] [])) = Ok Server) /\
  (existsb (script_frame "/lib/preswald/main.py")
     [Frame [("__name__", VStr "preswald.engine.service")]
            "/lib/preswald/engine/service.py"] = false /\
   script_frame "/lib/preswald/main.py"
     (Frame [("__name__", VStr "__main__")] "/home/u/app.py") = true /\
   classify direct_run (Console [] [])
   = (Ok Headless,
      Console []
        [Log INFO "Detected direct script execution, setting headless mode";
         Log INFO "Using ScriptService (Headless mode)"])) /\
  (IS_PYODIDE embedded_run = false /\ env_headless embedded_run = false /\
   existsb is_main (stack embedded_run) = false /\
   fst (classify embedded_run (Console [] [])) = Ok Server).
Proof.
  pose proof (classify_priority browser_run (Console [] [])) as (Hbrowser & _).
  pose proof (classify_priority headless_run (Console [] [])) as (_ & Hheadless & _).
  pose proof (classify_priority direct_run (Console [] [])) as (_ & _ & Hdirect & Hinner & _).
  pose proof (classify_priority server_run (Console [] [])) as (_ & _ & Hserver & _).
  pose proof (classify_priority embedded_run (Console [] [])) as (_ & _ & _ & _ & Hembedded).
  split; [split; [reflexivity | exact (Hbrowser eq_refl)]|].
  split; [split; [reflexivity | split; [reflexivity | exact (Hheadless eq_refl eq_refl)]]|].
  split; [split; [reflexivity | split; [reflexivity | split; [reflexivity|]]]|].
  { exact (Hdirect "/lib/preswald/main.py" eq_refl eq_refl eq_refl). }
  split; [split; [reflexivity | split; [reflexivity | split; [reflexivity|]]]|].
  { exact (Hserver "/lib/preswald/main.py" eq_refl eq_refl eq_refl). }
  split; [split; [reflexivity | split; [reflexivity|]]|].
  { exact (Hinner "/lib/preswald/main.py"
             [Frame [("__name__", VStr "preswald.engine.service")]
                    "/lib/preswald/engine/service.py"]
             (Frame [("__name__", VStr "__main__")] "/home/u/app.py") []
             eq_refl eq_refl eq_refl eq_refl eq_refl eq_refl). }
  split; [reflexivity | split; [reflexivity | split; [reflexivity|]]].
  exact (Hembedded eq_refl eq_refl eq_refl).
Defined.

(** Before [preswald.main] is loaded, a script run directly makes the
    module body raise instead of classifying. *)
Example classify_unloaded_run :
  fst (classify unloaded_run (Console [] [])) = Raise (KeyError "preswald.main").
Proof. reflexivity. Qed.

(** ** The singleton *)

Lemma snoc_lookup_last (h : list ScriptService) (o : ScriptService) :
  (h ++ [o]) !! length h = Some o.
Proof. now apply list_lookup_middle. Qed.

Lemma snoc_insert_last (h : list ScriptService) (o o' : ScriptService) :
  <[length h := o']> (h ++ [o]) = h ++ [o'].
Proof.
  rewrite insert_app_r_alt by reflexivity. now rewrite Nat.sub_diag.
Qed.

(** A method call on an object that is there. *)
Lemma on_allocated {A} (a : nat) (m : Meth A) (p : process) (o : ScriptService) :
  heap p !! a = Some o ->
  on a m p
  = (fst (m (SelfState o (proc_console p))),
     Process (_instance p)
             (<[a := self (snd (m (SelfState o (proc_console p))))]> (heap p))
             (con (snd (m (SelfState o (proc_console p)))))).
Proof.
  intros Hobj. unfold on. rewrite Hobj.
  destruct (m _) as [r s']. reflexivity.
Qed.

(** A method call leaves [_instance] alone. *)
Lemma on_instance {A} (a : nat) (m : Meth A) (p : process) :
  _instance (snd (on a m p)) = _instance p.
Proof.
  unfold on. destruct (heap p !! a); [|reflexivity].
  destruct (m _) as [r s']. reflexivity.
Qed.

(** A method call neither creates nor drops an object. *)
Lemma on_allocation {A} (a : nat) (m : Meth A) (p : process) :
  instance_allocated p -> instance_allocated (snd (on a m p)).
Proof.
  unfold instance_allocated, on.
  destruct (heap p !! a); [|trivial].
  destruct (m _) as [r s']. cbn [snd _instance heap].
  now rewrite length_insert.
Qed.

Lemma get_instance_some (p : process) (a : nat) :
  _instance p = Some a -> get_instance p = (Ok a, p).
Proof. intros H. unfold get_instance, bind, get. now rewrite H. Qed.

Lemma get_instance_none (p : process) :
  _instance p = None -> get_instance p = (Raise not_initialized, p).
Proof. intros H. unfold get_instance, bind, get. now rewrite H. Qed.

Section Singleton.

Variable os_path_exists : string -> bool.
Variable DataManager_raises : string -> string -> option exn.

Implicit Types (p : process) (a : nat) (script_path : option string)
  (cs : list class_call).

Local Abbreviation initialize := (initialize DataManager_raises).
Local Abbreviation step := (exec_class os_path_exists DataManager_raises).
Local Abbreviation steps := (run_class os_path_exists DataManager_raises).

(** Building the data manager never raises. *)
Lemma _initialize_data_manager_ok (path : string) (s : self_state) :
  fst (_initialize_data_manager DataManager_raises path s) = Ok tt.
Proof.
  unfold _initialize_data_manager, try_except, bind, lift_result, DataManager_new.
  destruct (DataManager_raises _ _); reflexivity.
Qed.

(** [initialize] when there is no instance: a new object is built, stored
    in [_instance] and returned. *)
Lemma initialize_fresh script_path p :
  _instance p = None ->
  initialize script_path p
  = (Ok (length (heap p)),
     Process (Some (length (heap p)))
             (heap p ++ [self (initialized_object DataManager_raises script_path
                                 (proc_console p))])
             (con (initialized_object DataManager_raises script_path (proc_console p)))).
Proof.
  intros Hnone.
  unfold ScriptService.initialize, initialized_object, bind at 1, get. rewrite Hnone.
  unfold bind at 1, new. cbn [proc_console heap _instance].
  unfold bind at 1, set_instance, modify. cbn [proc_console heap _instance].
  destruct (given script_path) as [path|]; [|reflexivity].
  unfold bind at 1.
  erewrite on_allocated by (cbn [heap]; apply snoc_lookup_last).
  cbn [fst snd heap proc_console _instance update_self modify self con].
  rewrite snoc_insert_last.
  unfold bind at 1.
  erewrite on_allocated by (cbn [heap]; apply snoc_lookup_last).
  cbn [heap proc_console _instance].
  rewrite _initialize_data_manager_ok, snoc_insert_last.
  reflexivity.
Qed.

(** [initialize] when there is an instance: it is returned, and nothing
    else happens. *)
Lemma initialize_existing script_path p a :
  _instance p = Some a -> initialize script_path p = (Ok a, p).
Proof.
  intros Hsome. unfold ScriptService.initialize, bind, get. rewrite Hsome. reflexivity.
Qed.

(** [initialize] always returns a reference, the one [_instance] then holds. *)
Lemma initialize_returns script_path p :
  exists a,
    fst (initialize script_path p) = Ok a /\
    _instance (snd (initialize script_path p)) = Some a.
Proof.
  destruct (_instance p) as [a|] eqn:Hinst.
  - exists a. now rewrite (initialize_existing _ _ _ Hinst).
  - exists (length (heap p)). now rewrite (initialize_fresh _ _ Hinst).
Qed.

(** Once set, [_instance] stays what it is under every call. *)
Lemma exec_class_keeps_instance (c : class_call) p a :
  _instance p = Some a -> _instance (step c p) = Some a.
Proof.
  intros Hinst. destruct c as [sp| |b c|b path]; cbn [exec_class].
  - now rewrite (initialize_existing _ _ _ Hinst).
  - now rewrite (get_instance_some _ _ Hinst).
  - now rewrite on_instance.
  - now rewrite on_instance.
Qed.

Lemma run_class_keeps_instance cs p a :
  _instance p = Some a -> _instance (steps cs p) = Some a.
Proof.
  revert p. induction cs as [|c cs IH]; intros p Hinst; [exact Hinst|].
  cbn. apply IH. now apply exec_class_keeps_instance.
Qed.

(** Only [initialize] sets [_instance]. *)
Lemma run_class_no_instance cs p :
  forallb (fun c => negb (is_initialize c)) cs = true ->
  _instance p = None ->
  _instance (steps cs p) = None.
Proof.
  revert p. induction cs as [|c cs IH]; intros p Hcs Hinst; [exact Hinst|].
  cbn [forallb] in Hcs. apply andb_prop in Hcs as [Hc Hcs].
  cbn. apply (IH _ Hcs).
  destruct c as [sp| |b c|b path]; cbn [exec_class]; try discriminate.
  - now rewrite (get_instance_none _ Hinst).
  - now rewrite on_instance.
  - now rewrite on_instance.
Qed.

(** The reference in [_instance] is always that of an object. *)
Lemma exec_class_allocated (c : class_call) p :
  instance_allocated p -> instance_allocated (step c p).
Proof.
  intros Halloc. destruct c as [sp| |b c|b path]; cbn [exec_class].
  - destruct (_instance p) as [a|] eqn:Hinst.
    + now rewrite (initialize_existing _ _ _ Hinst).
    + rewrite (initialize_fresh _ _ Hinst). unfold instance_allocated.
      cbn [snd _instance heap]. rewrite length_app. cbn. lia.
  - unfold get_instance, bind, get. destruct (_instance p); exact Halloc.
  - now apply on_allocation.
  - now apply on_allocation.
Qed.

Lemma run_class_allocated cs p :
  instance_allocated p -> instance_allocated (steps cs p).
Proof.
  revert p. induction cs as [|c cs IH]; intros p Hp; [exact Hp|].
  cbn. apply IH. now apply exec_class_allocated.
Qed.

(** C2. Before any [initialize], [get_instance] raises the error of a
    service not initialized, whatever other calls were made; after
    [initialize] returned a reference, [get_instance] returns that very
    reference, after every sequence of further calls. *)
Theorem get_instance_singleton :
  (forall cs,
      forallb (fun c => negb (is_initialize c)) cs = true ->
      fst (get_instance (steps cs process_start)) = Raise not_initialized) /\
  (forall script_path p cs,
      exists a,
        fst (initialize script_path p) = Ok a /\
        fst (get_instance (steps cs (snd (initialize script_path p)))) = Ok a).
Proof.
  split.
  - intros cs Hcs.
    now rewrite (get_instance_none _ (run_class_no_instance cs process_start Hcs eq_refl)).
  - intros script_path p cs.
    destruct (initialize_returns script_path p) as (a & Hret & Hinst).
    exists a. split; [exact Hret|].
    now rewrite (get_instance_some _ _ (run_class_keeps_instance cs _ _ Hinst)).
Qed.

(** C7. Whatever the script path, an error raised while the data manager is
    built from it is caught inside [initialize]: the call returns the new
    singleton, whose data manager is the empty one, the error is logged,
    and the singleton answers [register_client] and [append_component] as
    usual. *)
Theorem initialize_survives_configuration_failure (path : string) p (e : exn) :
  _instance p = None ->
  path <> EmptyString ->
  DataManager_raises (fst (config_paths path)) (snd (config_paths path)) = Some e ->
  exists p',
    initialize (Some path) p = (Ok (length (heap p)), p') /\
    _instance p' = Some (length (heap p)) /\
    heap p' !! length (heap p)
    = Some (set_data_manager (Some DataManager_empty) (set_script_path (Some path) fresh)) /\
    log (proc_console p')
    = log (proc_console p)
        ++ [Log INFO "Initialized ScriptService for headless mode";
            Log ERROR ("Error initializing data manager: " +:+ str_of_exn e)] /\
    (forall client_id,
        fst (on (length (heap p)) (register_client client_id) p') = Ok VNone) /\
    (forall component,
        fst (on (length (heap p)) (append_component component) p') = Ok tt /\
        exists o,
          heap (snd (on (length (heap p)) (append_component component) p'))
            !! length (heap p) = Some o /\
          _rendered_components o = [component]).
Proof.
  intros Hnone Hpath Hraises.
  rewrite (initialize_fresh _ _ Hnone). eexists. split; [reflexivity|].
  assert (Hobj :
    initialized_object DataManager_raises (Some path) (proc_console p)
    = SelfState
        (set_data_manager (Some DataManager_empty) (set_script_path (Some path) fresh))
        (console_log (Log ERROR ("Error initializing data manager: " +:+ str_of_exn e))
           (con (__init__ (proc_console p))))).
  { unfold initialized_object, given.
    destruct (String.eqb_spec path EmptyString) as [->|_]; [now destruct Hpath|].
    unfold _initialize_data_manager, try_except, bind, lift_result, DataManager_new.
    unfold config_paths in Hraises. cbn [fst snd] in Hraises. rewrite Hraises.
    reflexivity. }
  rewrite Hobj. cbn [_instance heap self con proc_console].
  split; [reflexivity|]. split; [apply snoc_lookup_last|].
  split; [cbn; now rewrite <- app_assoc|]. split.
  - intros client_id.
    erewrite on_allocated by (cbn [heap]; apply snoc_lookup_last). reflexivity.
  - intros component.
    erewrite on_allocated by (cbn [heap]; apply snoc_lookup_last).
    cbn [fst snd heap]. split; [apply append_component_ok|].
    rewrite snoc_insert_last. eexists. split; [apply snoc_lookup_last|].
    now rewrite append_component_rendered.
Qed.

(** C8, amended. [initialize] called again after [shutdown] does not raise:
    it returns the singleton there was before the shutdown, whose
    shutting-down flag is still set, and changes nothing. *)
Theorem initialize_after_shutdown script_path p a (o : ScriptService) :
  _instance p = Some a ->
  heap p !! a = Some o ->
  fst (on a shutdown p) = Ok tt /\
  initialize script_path (snd (on a shutdown p)) = (Ok a, snd (on a shutdown p)) /\
  heap (snd (on a shutdown p)) !! a = Some (set_is_shutting_down true o).
Proof.
  intros Hinst Hobj.
  rewrite (on_allocated _ _ _ _ Hobj). cbn [fst snd].
  split; [reflexivity|]. split.
  - now apply initialize_existing.
  - cbn [heap]. apply list_lookup_insert_eq. now apply lookup_lt_Some with o.
Qed.

(** C10. [initialize] called while a singleton exists returns it and
    ignores the script path: the process is left exactly as it was, so the
    object keeps its script path, data manager, component states and
    history, and the path is not checked for existence, whereas the
    [script_path] setter raises FileNotFoundError on a path that does not
    exist. *)
Theorem initialize_ignores_script_path script_path p a :
  _instance p = Some a ->
  initialize script_path p = (Ok a, p) /\
  (forall path s,
      os_path_exists path = false ->
      script_path_setter os_path_exists DataManager_raises path s
      = (Raise (FileNotFoundError ("Script not found: " +:+ path)), s)).
Proof.
  intros Hinst. split; [now apply initialize_existing|].
  intros path s Hmissing. unfold script_path_setter. now rewrite Hmissing.
Qed.

End Singleton.

Lemma get_instance_singleton_witness :
  forallb (fun c => negb (is_initialize c)) [Get_instance; Get_instance] = true /\
  fst (get_instance
         (run_class nothing_exists always_raises [Get_instance; Get_instance] process_start))
  = Raise not_initialized.
Proof.
  split; [reflexivity|].
  apply (proj1 (get_instance_singleton nothing_exists always_raises)).
  reflexivity.
Defined.

Lemma initialize_survives_configuration_failure_witness :
  (_instance process_start = None /\
   "/srv/app/hello.py" <> EmptyString /\
   always_raises (fst (config_paths "/srv/app/hello.py"))
                 (snd (config_paths "/srv/app/hello.py"))
   = Some (OSError "cannot load /srv/app/preswald.toml")) /\
  exists p',
    initialize always_raises (Some "/srv/app/hello.py") process_start = (Ok 0%nat, p') /\
    _instance p' = Some 0%nat /\
    heap p' !! 0%nat
    = Some (set_data_manager (Some DataManager_empty)
              (set_script_path (Some "/srv/app/hello.py") fresh)).
Proof.
  split; [split; [reflexivity | split; [discriminate | reflexivity]]|].
  destruct (initialize_survives_configuration_failure always_raises "/srv/app/hello.py"
              process_start (OSError "cannot load /srv/app/preswald.toml")
              eq_refl ltac:(discriminate) eq_refl)
    as (p' & Hrun & Hinst & Hobj & _).
  exists p'. split; [exact Hrun|]. split; [exact Hinst | exact Hobj].
Defined.

(** The claim that [initialize] raises after [shutdown] fails: from the
    start, after [initialize] and [shutdown], a second [initialize] returns
    the same reference and raises nothing. *)
Lemma initialize_after_shutdown_returns :
  fst (initialize never_raises None after_shutdown) = Ok 0%nat /\
  ~ (exists e, fst (initialize never_raises None after_shutdown) = Raise e).
Proof.
  split; [reflexivity|]. intros [e He]. discriminate He.
Qed.

Lemma initialize_after_shutdown_witness :
  (_instance (snd (initialize never_raises None process_start)) = Some 0%nat /\
   heap (snd (initialize never_raises None process_start)) !! 0%nat = Some fresh) /\
  initialize never_raises (Some "other.py") after_shutdown = (Ok 0%nat, after_shutdown) /\
  heap after_shutdown !! 0%nat = Some (set_is_shutting_down true fresh).
Proof.
  split; [split; reflexivity|].
  apply (initialize_after_shutdown never_raises (Some "other.py")
           (snd (initialize never_raises None process_start)) 0%nat fresh
           eq_refl eq_refl).
Defined.

Lemma initialize_ignores_script_path_witness :
  _instance after_shutdown = Some 0%nat /\
  initialize always_raises (Some "/no/such/script.py") after_shutdown
  = (Ok 0%nat, after_shutdown) /\
  script_path_setter nothing_exists always_raises "/no/such/script.py"
    (__init__ (Console [] []))
  = (Raise (FileNotFoundError "Script not found: /no/such/script.py"),
     __init__ (Console [] [])).
Proof.
  split; [reflexivity|].
  destruct (initialize_ignores_script_path nothing_exists always_raises
              (Some "/no/such/script.py") after_shutdown 0%nat eq_refl) as [Hinit Hset].
  split; [exact Hinit|].
  apply (Hset "/no/such/script.py" (__init__ (Console [] [])) eq_refl).
Defined.

(** * Further properties of the service object *)

(** ** Printing, again *)

(** What printing returns and writes depends on the component and the
    console, not on the object. *)
Lemma _print_component_console (c : pyval) (o : ScriptService) (k : console) :
  _print_component c (SelfState o k)
  = (fst (_print_component c (SelfState fresh k)),
     SelfState o (con (snd (_print_component c (SelfState fresh k))))).
Proof.
  destruct c; try reflexivity.
  unfold _print_component.
  repeat match goal with |- context [if ?b then _ else _] => destruct b end;
    try reflexivity.
  unfold bind, lift_result. destruct (py_len _); reflexivity.
Qed.

(** Printing adds its lines at the end of the standard output. *)
Lemma _print_component_stdout (c : pyval) (s : self_state) :
  stdout (con (snd (_print_component c s))) = stdout (con s) ++ line_of c.
Proof.
  unfold line_of. destruct s as [o [out lg]].
  destruct c; try reflexivity.
  unfold _print_component.
  repeat match goal with |- context [if ?b then _ else _] => destruct b end;
    try reflexivity.
  unfold bind, lift_result. destruct (py_len _); cbn; [reflexivity|].
  now rewrite app_nil_r.
Qed.

(** Printing either writes one line, the same on every state, or raises
    the same exception on every state and writes nothing. *)
Lemma print_component_cases (c : pyval) :
  (printable c = true /\
   exists line, forall s, _print_component c s = (Ok tt, printed line s)) \/
  (printable c = false /\
   (exists d, c = VDict d /\ dict_get "type" d = Some (VStr "table")) /\
   exists e, forall s, _print_component c s = (Raise e, s)).
Proof.
  destruct c as [| | | | |d]; try (left; split; [reflexivity | eexists; intros ?; reflexivity]).
  unfold printable, _print_component, dict_get_default.
  destruct (dict_get "type" d) as [[| | |t| |]|] eqn:Htype;
    try (left; split; [reflexivity | eexists; intros ?; reflexivity]).
  cbn [eq_str].
  destruct (String.eqb_spec t "table") as [->|Hne].
  - cbn. unfold bind, lift_result.
    destruct (py_len _) as [n|e].
    + left. split; [reflexivity | eexists; intros ?; reflexivity].
    + right. split; [reflexivity|]. split; [now exists d|].
      exists e. intros ?. reflexivity.
  - left. split; [reflexivity|].
    repeat match goal with |- context [if String.eqb t ?x then _ else _] =>
             destruct (String.eqb t x) end;
      eexists; intros ?; reflexivity.
Qed.

(** ** What appending does *)

(** The state update of a component: the pair it writes and nothing else,
    or the error of an [id] that cannot be a key. *)
Lemma update_component_state_cases (c : pyval) (s : self_state) :
  update_component_state c s
  = match c with
    | VDict d =>
        match dict_get "id" d, dict_get "value" d with
        | Some i, Some v =>
            match hash_key i with
            | Ok k => (Ok tt, SelfState (set_component_states (fun m => <[k := v]> m) (self s))
                                        (con s))
            | Raise e => (Raise e, s)
            end
        | _, _ => (Ok tt, s)
        end
    | _ => (Ok tt, s)
    end.
Proof.
  destruct c as [| | | | |d]; try reflexivity.
  unfold update_component_state, dict_has, dict_item.
  destruct (dict_get "id" d) as [i|], (dict_get "value" d) as [v|]; reflexivity.
Qed.

(** [append_component], step by step. *)
Lemma append_component_steps (c : pyval) (s : self_state) :
  append_component c s
  = match _print_component c
            (SelfState (set_rendered_components (fun l => l ++ [c]) (self s)) (con s)) with
    | (Ok _, s2) =>
        match update_component_state c s2 with
        | (Ok _, s3) => (Ok tt, s3)
        | (Raise e, s3) => (Ok tt, SelfState (self s3) (console_log (component_error e) (con s3)))
        end
    | (Raise e, s2) => (Ok tt, SelfState (self s2) (console_log (component_error e) (con s2)))
    end.
Proof.
  unfold append_component, try_except, bind, update_self, modify, logger, component_error.
  cbn [self con].
  destruct (_print_component c _) as [[[]|e] s2]; [|reflexivity].
  destruct (update_component_state c s2) as [[[]|e] s3]; reflexivity.
Qed.

(** X2. A component that carries a string [id] and a [value], and that
    prints, is read back: after [append_component], [get_component_state]
    of that [id] returns the [value], and every other identifier reads as
    before. *)
Theorem append_component_then_get
    (d : pydict) (i : string) (v : pyval) (s : self_state) :
  dict_get "id" d = Some (VStr i) ->
  dict_get "value" d = Some v ->
  printable (VDict d) = true ->
  (forall default,
      fst (get_component_state i default (snd (append_component (VDict d) s))) = Ok v) /\
  (forall j default,
      j <> i ->
      fst (get_component_state j default (snd (append_component (VDict d) s)))
      = fst (get_component_state j default s)).
Proof.
  intros Hid Hval Hprint. split.
  - intros default. rewrite get_component_state_fst. unfold read.
    rewrite append_component_store, (writes_of_append_component d i v Hid Hval Hprint).
    cbn [apply_writes foldl fst snd]. now rewrite lookup_insert_eq.
  - intros j default Hne. rewrite !get_component_state_fst. unfold read.
    rewrite append_component_store, (writes_of_append_component d i v Hid Hval Hprint).
    cbn [apply_writes foldl fst snd].
    rewrite lookup_insert_ne by congruence. reflexivity.
Qed.

Lemma append_component_then_get_witness :
  (dict_get "id" [("type", VStr "slider"); ("id", VStr "speed"); ("value", VInt 5)]
   = Some (VStr "speed") /\
   dict_get "value" [("type", VStr "slider"); ("id", VStr "speed"); ("value", VInt 5)]
   = Some (VInt 5) /\
   printable (VDict [("type", VStr "slider"); ("id", VStr "speed"); ("value", VInt 5)])
   = true) /\
  fst (get_component_state "speed" VNone
         (snd (append_component
                 (VDict [("type", VStr "slider"); ("id", VStr "speed"); ("value", VInt 5)])
                 (__init__ (Console [] [])))))
  = Ok (VInt 5).
Proof.
  split; [split; [reflexivity | split; reflexivity]|].
  apply (proj1 (append_component_then_get
                  [("type", VStr "slider"); ("id", VStr "speed"); ("value", VInt 5)]
                  "speed" (VInt 5) (__init__ (Console [] [])) eq_refl eq_refl eq_refl)).
Defined.

(** X3. [append_component] never raises, whatever the component: the
    component joins the end of the history, and the data manager, the
    script path, the shutdown flag and the other attributes stay as they
    were; only the state store may change besides. *)
Theorem append_component_isolated (c : pyval) (s : self_state) :
  exists m k,
    append_component c s
    = (Ok tt,
       SelfState
         (mkScriptService m (_rendered_components (self s) ++ [c])
            (data_manager (self s)) (branding_manager (self s)) (_script_path (self s))
            (_is_shutting_down (self s)) (websocket_connections (self s))
            (script_runners (self s)))
         k).
Proof.
  pose proof (append_component_ok c s) as Hok.
  pose proof (append_component_self c s) as Hself.
  destruct (append_component c s) as [r [o k]]. cbn [fst snd self] in Hok, Hself.
  subst r o. eexists _, k. reflexivity.
Qed.

(** X4. A table whose [data] has no length is recorded and nothing more:
    nothing is printed, the state store keeps its values even when the
    component carries an [id] and a [value], the TypeError is logged, and
    the call returns. *)
Theorem append_component_print_failure
    (d : pydict) (data : pyval) (e : exn) (s : self_state) :
  dict_get "type" d = Some (VStr "table") ->
  dict_get "data" d = Some data ->
  py_len data = Raise e ->
  append_component (VDict d) s
  = (Ok tt,
     SelfState (set_rendered_components (fun l => l ++ [VDict d]) (self s))
               (console_log (component_error e) (con s))).
Proof.
  intros Htype Hdata Hlen. rewrite append_component_steps.
  unfold _print_component, dict_get_default. rewrite Htype, Hdata. cbn [eq_str].
  change (String.eqb "table" "text") with false.
  change (String.eqb "table" "slider") with false.
  change (String.eqb "table" "plot") with false.
  change (String.eqb "table" "table") with true.
  cbn iota. unfold bind, lift_result. rewrite Hlen. reflexivity.
Qed.

Lemma append_component_print_failure_witness :
  (dict_get "type" [("type", VStr "table"); ("data", VInt 3);
                    ("id", VStr "t"); ("value", VInt 1)] = Some (VStr "table") /\
   dict_get "data" [("type", VStr "table"); ("data", VInt 3);
                    ("id", VStr "t"); ("value", VInt 1)] = Some (VInt 3) /\
   py_len (VInt 3) = Raise (TypeError "object of type 'int' has no len()")) /\
  append_component
    (VDict [("type", VStr "table"); ("data", VInt 3); ("id", VStr "t"); ("value", VInt 1)])
    (SelfState fresh (Console [] []))
  = (Ok tt,
     SelfState
       (set_rendered_components
          (fun l => l ++ [VDict [("type", VStr "table"); ("data", VInt 3);
                                 ("id", VStr "t"); ("value", VInt 1)]]) fresh)
       (console_log (component_error (TypeError "object of type 'int' has no len()"))
          (Console [] []))).
Proof.
  split; [split; [reflexivity | split; reflexivity]|].
  apply (append_component_print_failure
           [("type", VStr "table"); ("data", VInt 3); ("id", VStr "t"); ("value", VInt 1)]
           (VInt 3) (TypeError "object of type 'int' has no len()")
           (SelfState fresh (Console [] [])) eq_refl eq_refl eq_refl).
Defined.

(** X5. A component whose [id] is a list or a mapping is printed and
    recorded, but its [value] is not stored: the TypeError of the
    unhashable key is caught and logged, and the state store is as before. *)
Theorem append_component_unhashable_id
    (d : pydict) (i v : pyval) (e : exn) (s : self_state) :
  dict_get "id" d = Some i ->
  dict_get "value" d = Some v ->
  hash_key i = Raise e ->
  printable (VDict d) = true ->
  exists line,
    append_component (VDict d) s
    = (Ok tt,
       SelfState (set_rendered_components (fun l => l ++ [VDict d]) (self s))
                 (console_log (component_error e) (console_print line (con s)))).
Proof.
  intros Hid Hval Hhash Hprint.
  destruct (print_component_cases (VDict d)) as [[_ [line Hline]] | [Hno _]];
    [|congruence].
  exists line. rewrite append_component_steps, Hline, update_component_state_cases.
  rewrite Hid, Hval, Hhash. reflexivity.
Qed.

Lemma append_component_unhashable_id_witness :
  (dict_get "id" [("type", VStr "text"); ("id", VList [VInt 1]); ("value", VInt 2)]
   = Some (VList [VInt 1]) /\
   dict_get "value" [("type", VStr "text"); ("id", VList [VInt 1]); ("value", VInt 2)]
   = Some (VInt 2) /\
   hash_key (VList [VInt 1]) = Raise (TypeError "unhashable type: 'list'") /\
   printable (VDict [("type", VStr "text"); ("id", VList [VInt 1]); ("value", VInt 2)])
   = true) /\
  exists line,
    append_component
      (VDict [("type", VStr "text"); ("id", VList [VInt 1]); ("value", VInt 2)])
      (SelfState fresh (Console [] []))
    = (Ok tt,
       SelfState
         (set_rendered_components
            (fun l => l ++ [VDict [("type", VStr "text"); ("id", VList [VInt 1]);
                                   ("value", VInt 2)]]) fresh)
         (console_log (component_error (TypeError "unhashable type: 'list'"))
            (console_print line (Console [] [])))).
Proof.
  split; [split; [reflexivity | split; [reflexivity | split; reflexivity]]|].
  apply (append_component_unhashable_id
           [("type", VStr "text"); ("id", VList [VInt 1]); ("value", VInt 2)]
           (VList [VInt 1]) (VInt 2) (TypeError "unhashable type: 'list'")
           (SelfState fresh (Console [] [])) eq_refl eq_refl eq_refl eq_refl).
Defined.

(** ** Sequences of calls: history and output *)

(** [append_component] prints the line of its component, if any. *)
Lemma append_component_stdout (c : pyval) (s : self_state) :
  stdout (con (snd (append_component c s))) = stdout (con s) ++ line_of c.
Proof.
  rewrite append_component_steps.
  pose proof (_print_component_stdout c
                (SelfState (set_rendered_components (fun l => l ++ [c]) (self s)) (con s)))
    as Hout.
  destruct (_print_component c _) as [[[]|e] s2]; cbn [snd con stdout] in *; [|exact Hout].
  rewrite update_component_state_cases.
  destruct c as [| | | | |d]; try exact Hout.
  destruct (dict_get "id" d) as [i|], (dict_get "value" d) as [v|]; try exact Hout.
  destruct (hash_key i); exact Hout.
Qed.

(** [handle_client_message] changes the state store and the log only. *)
Lemma handle_client_message_snd (client_id : string) (message : pydict) (s : self_state) :
  exists m k,
    snd (handle_client_message client_id message s)
    = SelfState (set_component_states (fun _ => m) (self s)) k /\
    stdout k = stdout (con s).
Proof.
  unfold handle_client_message.
  destruct (eq_str _ _).
  - unfold bind at 1. destruct (dict_get_default "states" (VDict []) message) as [| | | | |st];
      try (exists (_component_states (self s)), (con s); destruct s as [[] ?];
           split; reflexivity).
    cbn [lift_result items]. destruct (handle_loop st s) as (c' & -> & Hout).
    exists (upsert_all st (_component_states (self s))), c'.
    split; [reflexivity | exact Hout].
  - exists (_component_states (self s)), (con s). destruct s as [[] ?]. split; reflexivity.
Qed.

Lemma handle_client_message_frame (client_id : string) (message : pydict) (s : self_state) :
  exists m,
    self (snd (handle_client_message client_id message s))
    = set_component_states (fun _ => m) (self s) /\
    stdout (con (snd (handle_client_message client_id message s))) = stdout (con s).
Proof.
  destruct (handle_client_message_snd client_id message s) as (m & k & -> & Hout).
  exists m. split; [reflexivity | exact Hout].
Qed.

Lemma exec_rendered (c : call) (s : self_state) :
  _rendered_components (self (exec c s)) = history_of [c] (_rendered_components (self s)).
Proof.
  destruct c as [comp|cid msg|i dflt| | |rc|uc| |]; try reflexivity.
  - apply append_component_rendered.
  - cbn [exec history_of foldl].
    destruct (handle_client_message_frame cid msg s) as (m & -> & _).
    reflexivity.
Qed.

Lemma exec_stdout (c : call) (s : self_state) :
  stdout (con (exec c s)) = stdout (con s) ++ lines_of c.
Proof.
  destruct c as [comp|cid msg|i dflt| | |rc|uc| |];
    cbn [exec lines_of]; try (cbn; now rewrite app_nil_r).
  - apply append_component_stdout.
  - destruct (handle_client_message_frame cid msg s) as (m & _ & ->).
    now rewrite app_nil_r.
Qed.

(** X6. After any sequence of calls, the history that
    [get_rendered_components] returns under [rows] holds the components
    appended since the last [clear_components], in the order of the calls;
    no other call adds to it, removes from it or reorders it. *)
Theorem rendered_components_history (cs : list call) (s : self_state) :
  fst (get_rendered_components (run cs s))
  = Ok (VDict [("rows", VList (history_of cs (_rendered_components (self s))))]).
Proof.
  assert (Hhist : forall cs s,
    _rendered_components (self (run cs s)) = history_of cs (_rendered_components (self s))).
  { clear. induction cs as [|c cs IH]; intros s; [reflexivity|].
    unfold run, history_of. cbn [foldl].
    fold (run cs (exec c s)). rewrite IH, exec_rendered. reflexivity. }
  unfold get_rendered_components, bind, get, ret. cbn [fst].
  now rewrite Hhist.
Qed.

(** X7. The standard output after any sequence of calls is the output
    before it followed by the lines of the appended components, in order:
    only [append_component] prints, one line at most per call, and a line
    is a function of the component alone, whatever the state store holds. *)
Theorem stdout_of_run (cs : list call) (s : self_state) :
  stdout (con (run cs s)) = stdout (con s) ++ concat (map lines_of cs) /\
  (forall c, length (lines_of c) <= 1)%nat.
Proof.
  split.
  - revert s. induction cs as [|c cs IH]; intros s.
    + cbn. now rewrite app_nil_r.
    + unfold run. cbn [foldl map concat]. fold (run cs (exec c s)).
      rewrite IH, exec_stdout. now rewrite app_assoc.
  - intros [c| | | | | | | |]; cbn [lines_of length]; try lia.
    unfold line_of.
    destruct (print_component_cases c) as [[_ [line ->]] | (_ & _ & e & ->)]; cbn; lia.
Qed.

(** ** Client messages, in full *)

(** The loop of [handle_client_message]: the pairs are written in order and
    one record is logged for each. *)
Lemma handle_loop_full (states : pydict) (s : self_state) :
  for_each states (fun kv =>
    match kv with
    | (component_id, value) =>
        update_self (set_component_states (fun m => <[KStr component_id := value]> m)) ;;
        logger DEBUG ("Updated component state: " +:+ component_id +:+ " = " +:+ py_str value)
    end) s
  = (Ok tt,
     SelfState (set_component_states (upsert_all states) (self s))
               (Console (stdout (con s)) (log (con s) ++ map update_record states))).
Proof.
  revert s. induction states as [|[k v] states IH]; intros s.
  - destruct s as [[] [out lg]]. cbn. now rewrite app_nil_r.
  - cbn [for_each]. unfold bind at 1.
    replace ((update_self (set_component_states (fun m => <[KStr k := v]> m)) ;;
              logger DEBUG ("Updated component state: " +:+ k +:+ " = " +:+ py_str v)) s)
      with (Ok tt, SelfState (set_component_states (fun m => <[KStr k := v]> m) (self s))
                     (console_log (update_record (k, v)) (con s)))
      by reflexivity.
    rewrite IH. cbn [self con console_log stdout log map].
    rewrite <- app_assoc. reflexivity.
Qed.

(** X8. [handle_client_message], case by case: a message of another type
    changes nothing; a [component_update] without [states] changes nothing
    either; one whose [states] is a mapping writes its pairs in order and
    logs one DEBUG record for each, touching nothing else; one whose
    [states] is no mapping raises AttributeError to the caller, with no
    pair written. *)
Theorem handle_client_message_cases
    (client_id : string) (message : pydict) (s : self_state) :
  (dict_get "type" message <> Some (VStr "component_update") ->
   handle_client_message client_id message s = (Ok tt, s)) /\
  (dict_get "type" message = Some (VStr "component_update") ->
   dict_get "states" message = None ->
   handle_client_message client_id message s = (Ok tt, s)) /\
  (forall states,
      dict_get "type" message = Some (VStr "component_update") ->
      dict_get "states" message = Some (VDict states) ->
      handle_client_message client_id message s
      = (Ok tt,
         SelfState (set_component_states (upsert_all states) (self s))
                   (Console (stdout (con s)) (log (con s) ++ map update_record states)))) /\
  (forall v,
      dict_get "type" message = Some (VStr "component_update") ->
      dict_get "states" message = Some v ->
      (forall states, v <> VDict states) ->
      handle_client_message client_id message s = (Raise (no_attribute v "items"), s)).
Proof.
  unfold handle_client_message, dict_get_default. repeat split.
  - intros Htype.
    destruct (dict_get "type" message) as [[| | |t| |]|]; try reflexivity.
    cbn [eq_str]. destruct (String.eqb_spec t "component_update") as [->|]; [|reflexivity].
    now destruct Htype.
  - intros -> ->. cbn [eq_str]. rewrite String.eqb_refl.
    unfold bind at 1. cbn [lift_result items for_each ret].
    destruct s as [[] [out lg]]. reflexivity.
  - intros states -> ->. cbn [eq_str]. rewrite String.eqb_refl.
    unfold bind at 1. cbn [lift_result items]. apply handle_loop_full.
  - intros v -> -> Hno. cbn [eq_str]. rewrite String.eqb_refl.
    destruct v; try reflexivity. now destruct (Hno d).
Qed.

Lemma handle_client_message_cases_witness :
  (dict_get "type" [("type", VStr "ping")] <> Some (VStr "component_update") /\
   handle_client_message "c" [("type", VStr "ping")] (SelfState fresh (Console [] []))
   = (Ok tt, SelfState fresh (Console [] []))) /\
  ((dict_get "type" [("type", VStr "component_update")] = Some (VStr "component_update") /\
    dict_get "states" [("type", VStr "component_update")] = None) /\
   handle_client_message "c" [("type", VStr "component_update")]
     (SelfState fresh (Console [] []))
   = (Ok tt, SelfState fresh (Console [] []))) /\
  ((dict_get "type" update_a_b = Some (VStr "component_update") /\
    dict_get "states" update_a_b = Some (VDict [("a", VInt 1); ("b", VInt 2)])) /\
   handle_client_message "c" update_a_b (SelfState fresh (Console [] []))
   = (Ok tt,
      SelfState (set_component_states (upsert_all [("a", VInt 1); ("b", VInt 2)]) fresh)
                (Console [] [Log DEBUG "Updated component state: a = 1";
                             Log DEBUG "Updated component state: b = 2"]))) /\
  ((dict_get "type" [("type", VStr "component_update"); ("states", VNone)]
    = Some (VStr "component_update") /\
    dict_get "states" [("type", VStr "component_update"); ("states", VNone)] = Some VNone /\
    (forall states, VNone <> VDict states)) /\
   handle_client_message "c" [("type", VStr "component_update"); ("states", VNone)]
     (SelfState fresh (Console [] []))
   = (Raise (AttributeError "'NoneType' object has no attribute 'items'"),
      SelfState fresh (Console [] []))).
Proof.
  split; [split; [discriminate|]|split; [split; [split; reflexivity|]
         |split; [split; [split; reflexivity|]|split; [split; [reflexivity|split;
           [reflexivity | discriminate]]|]]]].
  - apply (proj1 (handle_client_message_cases "c" [("type", VStr "ping")]
                    (SelfState fresh (Console [] [])))). discriminate.
  - apply (proj1 (proj2 (handle_client_message_cases "c" [("type", VStr "component_update")]
                           (SelfState fresh (Console [] []))))); reflexivity.
  - apply (proj1 (proj2 (proj2 (handle_client_message_cases "c" update_a_b
                                  (SelfState fresh (Console [] []))))));
      reflexivity.
  - apply (proj2 (proj2 (proj2 (handle_client_message_cases "c"
                                  [("type", VStr "component_update"); ("states", VNone)]
                                  (SelfState fresh (Console [] [])))))
             VNone).
    + reflexivity.
    + reflexivity.
    + discriminate.
Defined.

(** ** Shutdown *)

(** [append_component] does not read the shutdown flag. *)
Lemma append_component_shutting_down (c : pyval) (o : ScriptService) (k : console) :
  snd (append_component c (SelfState (set_is_shutting_down true o) k))
  = SelfState (set_is_shutting_down true (self (snd (append_component c (SelfState o k)))))
              (con (snd (append_component c (SelfState o k)))).
Proof.
  rewrite !append_component_steps. cbn [self con].
  rewrite (_print_component_console c (set_rendered_components _ (set_is_shutting_down true o))).
  rewrite (_print_component_console c (set_rendered_components _ o)).
  destruct (fst (_print_component c (SelfState fresh k))) as [[]|e]; [|reflexivity].
  rewrite !update_component_state_cases.
  destruct c as [| | | | |d]; try reflexivity.
  destruct (dict_get "id" d) as [i|], (dict_get "value" d) as [v|]; try reflexivity.
  destruct (hash_key i); reflexivity.
Qed.

(** [handle_client_message] as a function of the message and the state. *)
Lemma handle_client_message_eq (client_id : string) (message : pydict) (s : self_state) :
  handle_client_message client_id message s
  = if eq_str (dict_get_default "type" VNone message) "component_update"
    then match dict_get_default "states" (VDict []) message with
         | VDict states =>
             (Ok tt,
              SelfState (set_component_states (upsert_all states) (self s))
                (Console (stdout (con s)) (log (con s) ++ map update_record states)))
         | v => (Raise (no_attribute v "items"), s)
         end
    else (Ok tt, s).
Proof.
  unfold handle_client_message.
  destruct (eq_str _ _); [|reflexivity].
  unfold bind at 1.
  destruct (dict_get_default "states" (VDict []) message) as [| | | | |st]; try reflexivity.
  cbn [lift_result items]. apply handle_loop_full.
Qed.

(** No method reads the shutdown flag: on an object that is shutting down
    a call does what it does otherwise. *)
Lemma exec_shutting_down (c : call) (o : ScriptService) (k : console) :
  exec c (SelfState (set_is_shutting_down true o) k)
  = SelfState (set_is_shutting_down true (self (exec c (SelfState o k))))
              (con (exec c (SelfState o k))).
Proof.
  destruct c as [comp|cid msg|i dflt| | |rc|uc| |]; try reflexivity.
  - apply append_component_shutting_down.
  - cbn [exec]. rewrite !handle_client_message_eq.
    destruct (eq_str _ _); [|reflexivity].
    destruct (dict_get_default "states" (VDict []) msg); reflexivity.
Qed.

(** What a call does to the object does not depend on the console. *)
Lemma exec_self_console (c : call) (o : ScriptService) (k k' : console) :
  self (exec c (SelfState o k)) = self (exec c (SelfState o k')).
Proof.
  destruct c as [comp|cid msg|i dflt| | |rc|uc| |]; try reflexivity.
  - cbn [exec]. now rewrite !append_component_self.
  - cbn [exec]. rewrite !handle_client_message_eq.
    destruct (eq_str _ _); [|reflexivity].
    destruct (dict_get_default "states" (VDict []) msg); reflexivity.
Qed.

Lemma run_after_shutdown (cs : list call) (s s' : self_state) :
  self s' = set_is_shutting_down true (self s) ->
  stdout (con s') = stdout (con s) ->
  self (run cs s') = set_is_shutting_down true (self (run cs s)) /\
  stdout (con (run cs s')) = stdout (con (run cs s)).
Proof.
  revert s s'. induction cs as [|c cs IH]; intros s s' Hself Hout; [now split|].
  unfold run. cbn [foldl]. fold (run cs (exec c s')). fold (run cs (exec c s)).
  apply IH.
  - destruct s as [o k], s' as [o' k']. cbn [self] in Hself. subst o'.
    rewrite exec_shutting_down. cbn [self]. f_equal. apply exec_self_console.
  - now rewrite !exec_stdout, Hout.
Qed.

(** X9. After [shutdown] the service still takes every call and does what
    it would have done: for any sequence of calls, the object and the
    standard output are those of the same calls without the shutdown, but
    for the flag, which stays set. *)
Theorem calls_after_shutdown (cs : list call) (s : self_state) :
  self (run cs (snd (shutdown s))) = set_is_shutting_down true (self (run cs s)) /\
  stdout (con (run cs (snd (shutdown s)))) = stdout (con (run cs s)).
Proof.
  apply run_after_shutdown; destruct s as [o k]; reflexivity.
Qed.

(** ** The script path and the data manager *)

Section DataManagerSetup.

Variable os_path_exists : string -> bool.
Variable DataManager_raises : string -> string -> option exn.

(** [_initialize_data_manager] as a function of the path and the state. *)
Lemma _initialize_data_manager_eq (path : string) (s : self_state) :
  _initialize_data_manager DataManager_raises path s
  = (Ok tt,
     SelfState (set_data_manager (Some (built_data_manager DataManager_raises path)) (self s))
               (data_manager_console DataManager_raises path (con s))).
Proof.
  unfold _initialize_data_manager, try_except, bind, lift_result, DataManager_new,
    built_data_manager, data_manager_console, config_paths. cbn [fst snd].
  destruct (DataManager_raises _ _); reflexivity.
Qed.

(** X10. The [script_path] setter on a path that exists stores the path and
    sets the data manager, replacing the one there was: the one built from
    [preswald.toml] and [secrets.toml] in the directory of the script, or
    the empty one, with the error logged, when that construction raises.
    It does not raise then, and leaves the state store and the history as
    they were. *)
Theorem script_path_setter_existing (path : string) (s : self_state) :
  os_path_exists path = true ->
  script_path_setter os_path_exists DataManager_raises path s
  = (Ok tt,
     SelfState
       (set_data_manager (Some (built_data_manager DataManager_raises path))
          (set_script_path (Some path) (self s)))
       (data_manager_console DataManager_raises path (con s))).
Proof.
  intros Hexists. unfold script_path_setter. rewrite Hexists. cbn [negb].
  unfold bind, update_self, modify. now rewrite _initialize_data_manager_eq.
Qed.

(** The setter keeps the shutdown flag. *)
Lemma script_path_setter_flag (path : string) (s : self_state) :
  _is_shutting_down
    (self (snd (script_path_setter os_path_exists DataManager_raises path s)))
  = _is_shutting_down (self s).
Proof.
  unfold script_path_setter. destruct (os_path_exists path); [|reflexivity].
  cbn [negb]. unfold bind, update_self, modify.
  rewrite _initialize_data_manager_eq. destruct s as [[] ?]. reflexivity.
Qed.

(** X11. [initialize] without an instance and with a script path builds the
    singleton with that path and with a data manager, built from the two
    files next to the script or empty; the path is stored as given, with
    no check that it exists.  Without a script path, or with an empty one,
    the singleton has neither script path nor data manager. *)
Theorem initialize_builds (script_path : option string) (p : process) :
  _instance p = None ->
  (forall path,
      script_path = Some path -> path <> EmptyString ->
      initialize DataManager_raises script_path p
      = (Ok (length (heap p)),
         Process (Some (length (heap p)))
           (heap p ++ [set_data_manager (Some (built_data_manager DataManager_raises path))
                         (set_script_path (Some path) fresh)])
           (data_manager_console DataManager_raises path (con (__init__ (proc_console p)))))) /\
  (script_path = None \/ script_path = Some EmptyString ->
   initialize DataManager_raises script_path p
   = (Ok (length (heap p)),
      Process (Some (length (heap p))) (heap p ++ [fresh]) (con (__init__ (proc_console p))))).
Proof.
  intros Hnone. split.
  - intros path -> Hpath. rewrite (initialize_fresh _ _ _ Hnone).
    unfold initialized_object, given.
    destruct (String.eqb_spec path EmptyString) as [->|_]; [now destruct Hpath|].
    now rewrite _initialize_data_manager_eq.
  - intros [-> | ->]; now rewrite (initialize_fresh _ _ _ Hnone).
Qed.

(** A call of the class keeps the flag of an object that is shutting down. *)
Lemma exec_class_shutting_down (c : class_call) (p : process) (a : nat) (o : ScriptService) :
  heap p !! a = Some o -> _is_shutting_down o = true ->
  exists o',
    heap (exec_class os_path_exists DataManager_raises c p) !! a = Some o' /\
    _is_shutting_down o' = true.
Proof.
  intros Hobj Hflag.
  assert (Hon : forall A b (m : Meth A),
    (forall ob k, _is_shutting_down ob = true ->
                  _is_shutting_down (self (snd (m (SelfState ob k)))) = true) ->
    exists o', heap (snd (on b m p)) !! a = Some o' /\ _is_shutting_down o' = true).
  { intros A b m Hm. unfold on.
    destruct (heap p !! b) as [ob|] eqn:Hb; [|now exists o].
    destruct (m (SelfState ob (proc_console p))) as [r s'] eqn:Hrun. cbn [snd heap].
    destruct (decide (a = b)) as [->|Hne].
    - exists (self s'). split.
      + apply list_lookup_insert_eq. now apply lookup_lt_Some with ob.
      + assert (ob = o) as -> by congruence.
        specialize (Hm o (proc_console p) Hflag). now rewrite Hrun in Hm.
    - exists o. split; [|exact Hflag]. now rewrite list_lookup_insert_ne by congruence. }
  destruct c as [sp| |b c|b path]; cbn [exec_class].
  - destruct (_instance p) as [i|] eqn:Hinst.
    + rewrite (initialize_existing _ _ _ _ Hinst). now exists o.
    + rewrite (initialize_fresh _ _ _ Hinst). cbn [snd heap]. exists o.
      split; [|exact Hflag]. rewrite lookup_app_l; [exact Hobj|].
      now apply lookup_lt_Some with o.
  - unfold get_instance, bind, get. destruct (_instance p); now exists o.
  - apply Hon. intros ob k Hob. cbn [snd].
    assert (ob = set_is_shutting_down true ob) as -> by (destruct ob; cbn in *; now subst).
    now rewrite exec_shutting_down.
  - apply Hon. intros ob k Hob. now rewrite script_path_setter_flag.
Qed.

(** X12. Shutting down is final: once the flag of an object is set, no call
    on the class or on an object clears it, neither [initialize], nor the
    [script_path] setter, nor any method. *)
Theorem shutting_down_is_final (cs : list class_call) (p : process) (a : nat)
    (o : ScriptService) :
  heap p !! a = Some o -> _is_shutting_down o = true ->
  exists o',
    heap (run_class os_path_exists DataManager_raises cs p) !! a = Some o' /\
    _is_shutting_down o' = true.
Proof.
  revert p o. induction cs as [|c cs IH]; intros p o Hobj Hflag; [now exists o|].
  destruct (exec_class_shutting_down c p a o Hobj Hflag) as (o1 & Hobj1 & Hflag1).
  cbn. exact (IH _ _ Hobj1 Hflag1).
Qed.

(** A call of the class creates an object only when there is none. *)
Lemma exec_class_at_most_one (c : class_call) (p : process) :
  at_most_one p -> at_most_one (exec_class os_path_exists DataManager_raises c p).
Proof.
  assert (Hon : forall A b (m : Meth A), at_most_one p -> at_most_one (snd (on b m p))).
  { intros A b m. unfold at_most_one, on.
    destruct (heap p !! b); [|trivial].
    destruct (m _) as [r s']. cbn [snd _instance heap].
    destruct (_instance p).
    - now rewrite length_insert.
    - intros ->. reflexivity. }
  intros Hone. destruct c as [sp| |b c|b path]; cbn [exec_class].
  - destruct (_instance p) as [i|] eqn:Hinst.
    + now rewrite (initialize_existing _ _ _ _ Hinst).
    + rewrite (initialize_fresh _ _ _ Hinst).
      unfold at_most_one in *. rewrite Hinst in Hone. cbn [snd _instance heap].
      rewrite Hone. split; reflexivity.
  - unfold get_instance, bind, get. destruct (_instance p); exact Hone.
  - now apply Hon.
  - now apply Hon.
Qed.

(** X13. The class is a singleton: whatever calls are made from the start
    of the process, at most one [ScriptService] object is ever built, and
    [_instance], once set, refers to it. *)
Theorem at_most_one_object (cs : list class_call) :
  (length (heap (run_class os_path_exists DataManager_raises cs process_start)) <= 1)%nat /\
  (forall a,
      _instance (run_class os_path_exists DataManager_raises cs process_start) = Some a ->
      a = 0%nat /\
      exists o, heap (run_class os_path_exists DataManager_raises cs process_start) = [o]).
Proof.
  assert (Hinv : at_most_one (run_class os_path_exists DataManager_raises cs process_start)).
  { assert (Hgen : forall p, at_most_one p ->
              at_most_one (run_class os_path_exists DataManager_raises cs p)).
    { induction cs as [|c cs IH]; intros p Hp; [exact Hp|].
      cbn. apply IH. now apply exec_class_at_most_one. }
    apply Hgen. reflexivity. }
  unfold at_most_one in Hinv.
  destruct (_instance (run_class _ _ cs process_start)) as [i|].
  - destruct Hinv as [-> Hlen]. split; [lia|].
    intros a [= <-]. split; [reflexivity|].
    destruct (heap (run_class _ _ cs process_start)) as [|o [|]]; try discriminate.
    now exists o.
  - rewrite Hinv. split; [cbn; lia | discriminate].
Qed.

End DataManagerSetup.

Lemma script_path_setter_existing_witness :
  everything_exists "/srv/app/hello.py" = true /\
  script_path_setter everything_exists always_raises "/srv/app/hello.py"
    (SelfState fresh (Console [] []))
  = (Ok tt,
     SelfState
       (set_data_manager (Some DataManager_empty)
          (set_script_path (Some "/srv/app/hello.py") fresh))
       (Console []
          [Log ERROR "Error initializing data manager: cannot load /srv/app/preswald.toml"])).
Proof.
  split; [reflexivity|].
  apply (script_path_setter_existing everything_exists always_raises "/srv/app/hello.py"
           (SelfState fresh (Console [] [])) eq_refl).
Defined.

Lemma initialize_builds_witness :
  _instance process_start = None /\
  initialize never_raises (Some "/srv/app/hello.py") process_start
  = (Ok 0%nat,
     Process (Some 0%nat)
       [set_data_manager
          (Some (mkDataManager (Some "/srv/app/preswald.toml")
                               (Some "/srv/app/secrets.toml")))
          (set_script_path (Some "/srv/app/hello.py") fresh)]
       (Console [] [Log INFO "Initialized ScriptService for headless mode"])) /\
  initialize never_raises (Some EmptyString) process_start
  = (Ok 0%nat,
     Process (Some 0%nat) [fresh]
       (Console [] [Log INFO "Initialized ScriptService for headless mode"])).
Proof.
  split; [reflexivity|]. split.
  - apply (proj1 (initialize_builds never_raises (Some "/srv/app/hello.py") process_start
                    eq_refl) "/srv/app/hello.py" eq_refl).
    discriminate.
  - apply (proj2 (initialize_builds never_raises (Some EmptyString) process_start eq_refl)).
    now right.
Defined.

Lemma shutting_down_is_final_witness :
  (heap after_shutdown !! 0%nat = Some (set_is_shutting_down true fresh) /\
   _is_shutting_down (set_is_shutting_down true fresh) = true) /\
  exists o',
    heap (run_class everything_exists never_raises
            [Initialize (Some "/srv/app/hello.py");
             Set_script_path 0%nat "/srv/app/hello.py";
             Method 0%nat Clear_components;
             Method 0%nat (Append_component (VStr "again"))]
            after_shutdown) !! 0%nat = Some o' /\
    _is_shutting_down o' = true.
Proof.
  split; [split; reflexivity|].
  apply (shutting_down_is_final everything_exists never_raises
           [Initialize (Some "/srv/app/hello.py");
            Set_script_path 0%nat "/srv/app/hello.py";
            Method 0%nat Clear_components;
            Method 0%nat (Append_component (VStr "again"))]
           after_shutdown 0%nat (set_is_shutting_down true fresh) eq_refl eq_refl).
Defined.

(** ** The files next to the script *)

Lemma sapp_nil (s : string) : EmptyString +:+ s = s.
Proof. reflexivity. Qed.

Lemma sapp_cons (c : ascii) (a s : string) : String c a +:+ s = String c (a +:+ s).
Proof. reflexivity. Qed.

Lemma str_contains_app_sep (a b : string) : str_contains sep (a +:+ String sep b) = true.
Proof.
  induction a as [|c a IH]; rewrite ?sapp_nil, ?sapp_cons; cbn [str_contains].
  - now rewrite Ascii.eqb_refl.
  - rewrite IH. apply orb_true_r.
Qed.

Lemma upto_last_sep_none (name : string) :
  str_contains sep name = false -> upto_last_sep name = EmptyString.
Proof.
  induction name as [|c name IH]; [reflexivity|].
  cbn [str_contains upto_last_sep]. intros H. apply orb_false_elim in H as [Hc Hname].
  rewrite Hname. rewrite Ascii.eqb_sym in Hc. now rewrite Hc.
Qed.

Lemma upto_last_sep_app (a name : string) :
  str_contains sep name = false ->
  upto_last_sep (a +:+ String sep name) = a +:+ String sep EmptyString.
Proof.
  intros Hname. induction a as [|c a IH]; rewrite ?sapp_nil, ?sapp_cons;
    cbn [upto_last_sep].
  - now rewrite Hname, Ascii.eqb_refl.
  - now rewrite str_contains_app_sep, IH.
Qed.

Lemma all_sep_no (dir : string) :
  dir <> EmptyString -> ends_with_sep dir = false -> all_sep dir = false.
Proof.
  induction dir as [|c dir IH]; intros Hne Hend; [now destruct Hne|].
  destruct dir as [|c' dir].
  - cbn [all_sep ends_with_sep] in *. now rewrite Hend.
  - cbn [all_sep]. cbn [all_sep] in IH.
    rewrite IH; [apply andb_false_r | discriminate | exact Hend].
Qed.

Lemma all_sep_app (a b : string) : all_sep a = false -> all_sep (a +:+ b) = false.
Proof.
  induction a as [|c a IH]; [discriminate|].
  rewrite sapp_cons. cbn [all_sep]. intros H.
  apply andb_false_iff in H as [-> | H]; [reflexivity|].
  rewrite (IH H). apply andb_false_r.
Qed.

Lemma rstrip_sep_app (dir : string) :
  dir <> EmptyString -> ends_with_sep dir = false ->
  rstrip_sep (dir +:+ String sep EmptyString) = dir.
Proof.
  induction dir as [|c dir IH]; intros Hne Hend; [now destruct Hne|].
  destruct dir as [|c' dir].
  - rewrite sapp_cons, sapp_nil. cbn [rstrip_sep ends_with_sep] in *.
    rewrite Ascii.eqb_refl. now rewrite Hend.
  - rewrite sapp_cons. cbn [rstrip_sep].
    rewrite IH; [reflexivity | discriminate | exact Hend].
Qed.

Lemma os_path_dirname_app (dir name : string) :
  dir <> EmptyString -> ends_with_sep dir = false -> str_contains sep name = false ->
  os_path_dirname (dir +:+ String sep name) = dir.
Proof.
  intros Hne Hend Hname. unfold os_path_dirname.
  rewrite (upto_last_sep_app _ _ Hname).
  rewrite (all_sep_app _ _ (all_sep_no _ Hne Hend)).
  destruct dir as [|c dir]; [now destruct Hne|].
  rewrite sapp_cons. cbn [String.eqb negb andb]. rewrite <- sapp_cons.
  now apply (rstrip_sep_app (String c dir)).
Qed.

Lemma os_path_join_dir (dir file : string) :
  dir <> EmptyString -> ends_with_sep dir = false -> starts_with_sep file = false ->
  os_path_join dir file = dir +:+ String sep file.
Proof.
  intros Hne Hend Hfile. unfold os_path_join. rewrite Hfile, Hend.
  destruct dir; [now destruct Hne | reflexivity].
Qed.

(** X14. The configuration and the secrets file are looked for next to the
    script: for a script [dir/name] they are [dir/preswald.toml] and
    [dir/secrets.toml]; for a script in the root directory they are
    [/preswald.toml] and [/secrets.toml]; and for a bare file name they are
    the relative paths [preswald.toml] and [secrets.toml]. *)
Theorem config_paths_next_to_script (dir name : string) :
  str_contains sep name = false ->
  (dir <> EmptyString -> ends_with_sep dir = false ->
   config_paths (dir +:+ String sep name)
   = (dir +:+ "/preswald.toml", dir +:+ "/secrets.toml")) /\
  config_paths (String sep name) = ("/preswald.toml", "/secrets.toml") /\
  config_paths name = ("preswald.toml", "secrets.toml").
Proof.
  intros Hname. unfold config_paths. repeat split.
  - intros Hne Hend. rewrite (os_path_dirname_app _ _ Hne Hend Hname).
    now rewrite !os_path_join_dir.
  - unfold os_path_dirname. rewrite <- (sapp_nil (String sep name)).
    rewrite (upto_last_sep_app EmptyString name Hname). reflexivity.
  - unfold os_path_dirname. rewrite (upto_last_sep_none _ Hname). reflexivity.
Qed.

Lemma config_paths_next_to_script_witness :
  (str_contains sep "hello.py" = false /\
   "/srv/app" <> EmptyString /\ ends_with_sep "/srv/app" = false) /\
  config_paths "/srv/app/hello.py" = ("/srv/app/preswald.toml", "/srv/app/secrets.toml").
Proof.
  split; [split; [reflexivity | split; [discriminate | reflexivity]]|].
  apply (proj1 (config_paths_next_to_script "/srv/app" "hello.py" eq_refl));
    [discriminate | reflexivity].
Defined.

(** * Further properties of the environment detector *)

(** Without the server entry module, the walk raises at the innermost
    [__main__] frame, having logged nothing. *)
Lemma walk_not_loaded (i : interpreter) (frames : list frame) (c : console) :
  assoc "preswald.main" (sys_modules i) = None ->
  walk i frames c
  = if existsb is_main frames then (Raise (KeyError "preswald.main"), c) else (Ok false, c).
Proof.
  intros Hmod. induction frames as [|f f_back IH]; [reflexivity|].
  cbn [walk existsb]. destruct (is_main f); [|exact IH].
  unfold main_file. rewrite Hmod. reflexivity.
Qed.

(** X15. When neither the browser marker nor the environment variable is
    there and [preswald.main] has not been imported, a [__main__] frame
    anywhere on the stack makes the module body raise KeyError: no
    implementation is selected, and nothing is logged. *)
Theorem classify_server_entry_not_loaded (i : interpreter) (c : console) :
  IS_PYODIDE i = false ->
  env_headless i = false ->
  assoc "preswald.main" (sys_modules i) = None ->
  existsb is_main (stack i) = true ->
  classify i c = (Raise (KeyError "preswald.main"), c).
Proof.
  intros Hpy Henv Hmod Hmain. unfold classify, IS_HEADLESS.
  rewrite Hpy, Henv. cbn [negb andb]. unfold bind at 1.
  now rewrite (walk_not_loaded i (stack i) c Hmod), Hmain.
Qed.

Lemma classify_server_entry_not_loaded_witness :
  (IS_PYODIDE unloaded_run = false /\ env_headless unloaded_run = false /\
   assoc "preswald.main" (sys_modules unloaded_run) = None /\
   existsb is_main (stack unloaded_run) = true) /\
  classify unloaded_run (Console [] []) = (Raise (KeyError "preswald.main"), Console [] []).
Proof.
  split; [split; [reflexivity | split; [reflexivity | split; reflexivity]]|].
  apply (classify_server_entry_not_loaded unloaded_run (Console [] [])
           eq_refl eq_refl eq_refl eq_refl).
Defined.

(** X16. Headless is chosen on positive evidence only: when the module body
    selects the script service, the browser marker is absent and either the
    environment variable is [1], or [preswald.main] is loaded and some frame
    is a [__main__] frame whose file is not that of [preswald.main]. *)
Theorem classify_headless_evidence (i : interpreter) (c : console) :
  fst (classify i c) = Ok Headless ->
  IS_PYODIDE i = false /\
  (env_headless i = true \/
   exists file,
     main_file i = Ok file /\ existsb (script_frame file) (stack i) = true).
Proof.
  unfold classify, IS_HEADLESS.
  destruct (IS_PYODIDE i) eqn:Hpy.
  - rewrite andb_false_r. cbn. discriminate.
  - intros Hres. split; [reflexivity|].
    destruct (env_headless i) eqn:Henv; [now left | right].
    cbn [negb andb] in Hres. unfold bind at 1 in Hres.
    destruct (assoc "preswald.main" (sys_modules i)) as [file|] eqn:Hmod.
    + assert (Hfile : main_file i = Ok file) by (unfold main_file; now rewrite Hmod).
      exists file. split; [exact Hfile|].
      pose proof (walk_script_frame i file (stack i) c Hfile) as Hwalk.
      destruct (walk i (stack i) c) as [r c']. cbn [fst] in Hwalk. subst r.
      destruct (existsb _ _); [reflexivity | discriminate Hres].
    + rewrite (walk_not_loaded i (stack i) c Hmod) in Hres.
      destruct (existsb is_main (stack i)); discriminate Hres.
Qed.

Lemma classify_headless_evidence_witness :
  fst (classify direct_run (Console [] [])) = Ok Headless /\
  IS_PYODIDE direct_run = false /\
  (env_headless direct_run = true \/
   exists file,
     main_file direct_run = Ok file /\
     existsb (script_frame file) (stack direct_run) = true).
Proof.
  split; [reflexivity|].
  apply (classify_headless_evidence direct_run (Console [] [])). reflexivity.
Defined.

(** * [preswald.interfaces.data] *)

Example os_path_abspath_examples :
  os_path_abspath "/home/u" "app.py" = "/home/u/app.py" /\
  os_path_abspath "/home/u" "./x/../app.py" = "/home/u/app.py" /\
  os_path_abspath "/home/u" "../../../app.py" = "/app.py" /\
  os_path_abspath "/home/u" "/srv//a/./b/" = "/srv/a/b" /\
  os_path_abspath "/home/u" "//srv/a" = "//srv/a" /\
  os_path_abspath "/home/u" "///srv/a" = "/srv/a" /\
  os_path_abspath "/" "app.py" = "/app.py" /\
  os_path_normpath "a/../.." = ".." /\
  os_path_normpath "a/.." = "." /\
  os_path_normpath "/.." = "/".
Proof. repeat split; reflexivity. Qed.

Import Data.

Lemma initial_slashes_absolute (path : string) :
  starts_with_sep path = true -> exists n, initial_slashes path = S n.
Proof.
  destruct path as [|c1 rest]; [discriminate|].
  cbn [starts_with_sep initial_slashes]. intros ->.
  destruct rest as [|c2 rest]; [now exists 0%nat|].
  destruct (Ascii.eqb c2 sep); [|now exists 0%nat].
  destruct rest as [|c3 rest]; [now exists 1%nat|].
  destruct (Ascii.eqb c3 sep); [now exists 0%nat | now exists 1%nat].
Qed.

Lemma os_path_normpath_absolute (path : string) :
  starts_with_sep path = true -> starts_with_sep (os_path_normpath path) = true.
Proof.
  intros Habs. unfold os_path_normpath.
  destruct path as [|c rest]; [discriminate|].
  change (String.eqb (String c rest) EmptyString) with false. cbn iota.
  destruct (initial_slashes_absolute _ Habs) as [n ->].
  cbn [repeat_sep]. rewrite sapp_cons.
  change (String.eqb (String sep ?x) EmptyString) with false.
  cbn [String.eqb]. reflexivity.
Qed.

(** [os.path.abspath] under an absolute working directory gives an
    absolute path, for every argument: a relative one is joined to the
    working directory, and normalising keeps the leading slash. *)
Lemma os_path_abspath_absolute (cwd path : string) :
  starts_with_sep cwd = true ->
  starts_with_sep (os_path_abspath cwd path) = true.
Proof.
  intros Hcwd. unfold os_path_abspath. apply os_path_normpath_absolute.
  destruct (starts_with_sep path) eqn:Hpath; [exact Hpath|].
  unfold os_path_join. rewrite Hpath.
  destruct cwd as [|c cwd]; [discriminate|].
  cbn [starts_with_sep] in Hcwd.
  destruct (String.eqb (String c cwd) EmptyString || ends_with_sep (String c cwd));
    rewrite sapp_cons; exact Hcwd.
Qed.

Section DataCalls.

Variables Conn DataFrame : Type.
Variable DataManager_raises : string -> string -> option exn.
Variable DataManager_connect : DataManager -> result (pyval * Conn).
Variable DataManager_query : DataManager -> string -> string -> result DataFrame.
Variable DataManager_get_df : DataManager -> string -> option string -> result DataFrame.

Local Abbreviation connect := (Data.connect Conn DataManager_raises DataManager_connect).
Local Abbreviation query := (Data.query DataFrame DataManager_query).
Local Abbreviation get_df := (Data.get_df DataFrame DataManager_get_df).
Local Abbreviation connect_service := (Data.connect_service DataManager_raises).

Lemma PreswaldService_get_instance_eq (rt : runtime) :
  PreswaldService_get_instance rt
  = match _instance (rt_process rt) with
    | Some a => (Ok a, rt)
    | None => (Raise not_initialized, rt)
    end.
Proof.
  unfold PreswaldService_get_instance, in_process, get_instance, bind, get.
  destruct rt as [p env cwd]. cbn [rt_process].
  destruct (_instance p); reflexivity.
Qed.

Lemma data_manager_method_eq (a : nat) (name : string) (rt : runtime) :
  data_manager_method a name rt
  = match heap (rt_process rt) !! a with
    | Some o =>
        match data_manager o with
        | Some dm => (Ok dm, rt)
        | None => (Raise (no_attribute VNone name), rt)
        end
    | None => (Raise ReferenceError, rt)
    end.
Proof.
  unfold data_manager_method, bind, get.
  destruct (heap (rt_process rt) !! a) as [o|]; [|reflexivity].
  destruct (data_manager o); reflexivity.
Qed.

(** [query], outcome by outcome. *)
Lemma query_eq (sql source_name : string) (rt : runtime) :
  query sql source_name rt
  = match PreswaldService_get_instance rt with
    | (Ok a, rt1) =>
        match data_manager_method a "query" rt1 with
        | (Ok dm, rt2) =>
            match DataManager_query dm sql source_name with
            | Ok df =>
                (Ok (Some df),
                 logged INFO ("Successfully queried data source: " +:+ source_name) rt2)
            | Raise e =>
                (Ok None, logged ERROR ("Error querying data source: " +:+ str_of_exn e) rt2)
            end
        | (Raise e, rt2) =>
            (Ok None, logged ERROR ("Error querying data source: " +:+ str_of_exn e) rt2)
        end
    | (Raise e, rt1) =>
        (Ok None, logged ERROR ("Error querying data source: " +:+ str_of_exn e) rt1)
    end.
Proof.
  unfold Data.query, try_except, bind at 1.
  destruct (PreswaldService_get_instance rt) as [[a|e] rt1]; [|reflexivity].
  unfold bind at 1.
  destruct (data_manager_method a "query" rt1) as [[dm|e] rt2]; [|reflexivity].
  unfold bind, lift_result. destruct (DataManager_query dm sql source_name); reflexivity.
Qed.

Lemma get_df_eq (source_name : string) (table_name : option string) (rt : runtime) :
  get_df source_name table_name rt
  = match PreswaldService_get_instance rt with
    | (Ok a, rt1) =>
        match data_manager_method a "get_df" rt1 with
        | (Ok dm, rt2) =>
            match DataManager_get_df dm source_name table_name with
            | Ok df =>
                (Ok (Some df),
                 logged INFO ("Successfully got a dataframe from data source: "
                              +:+ source_name) rt2)
            | Raise e =>
                (Ok None,
                 logged ERROR ("Error getting a dataframe from data source: "
                               +:+ str_of_exn e) rt2)
            end
        | (Raise e, rt2) =>
            (Ok None,
             logged ERROR ("Error getting a dataframe from data source: "
                           +:+ str_of_exn e) rt2)
        end
    | (Raise e, rt1) =>
        (Ok None,
         logged ERROR ("Error getting a dataframe from data source: " +:+ str_of_exn e) rt1)
    end.
Proof.
  unfold Data.get_df, try_except, bind at 1.
  destruct (PreswaldService_get_instance rt) as [[a|e] rt1]; [|reflexivity].
  unfold bind at 1.
  destruct (data_manager_method a "get_df" rt1) as [[dm|e] rt2]; [|reflexivity].
  unfold bind, lift_result.
  destruct (DataManager_get_df dm source_name table_name); reflexivity.
Qed.

(** The part of [connect] under [try], outcome by outcome. *)
Lemma connect_eq (headless : bool) (caller_globals : pydict) (rt : runtime) :
  connect headless caller_globals rt
  = match connect_service caller_globals (snd (set_headless headless rt)) with
    | (Ok a, rt1) =>
        match data_manager_method a "connect" rt1 with
        | (Ok dm, rt2) =>
            match DataManager_connect dm with
            | Ok (source_names, duckdb_conn) =>
                (Ok (Some duckdb_conn),
                 logged INFO ("Successfully connected to data sources: "
                              +:+ py_str source_names) rt2)
            | Raise e =>
                (Ok None,
                 logged ERROR ("Error connecting to datasources: " +:+ str_of_exn e) rt2)
            end
        | (Raise e, rt2) =>
            (Ok None, logged ERROR ("Error connecting to datasources: " +:+ str_of_exn e) rt2)
        end
    | (Raise e, rt1) =>
        (Ok None, logged ERROR ("Error connecting to datasources: " +:+ str_of_exn e) rt1)
    end.
Proof.
  unfold Data.connect, bind at 1.
  assert (Hset : set_headless headless rt = (Ok tt, snd (set_headless headless rt)))
    by (destruct headless; reflexivity).
  rewrite Hset. cbn [snd]. unfold try_except, bind at 1.
  destruct (connect_service caller_globals _) as [[a|e] rt1]; [|reflexivity].
  unfold bind at 1.
  destruct (data_manager_method a "connect" rt1) as [[dm|e] rt2]; [|reflexivity].
  unfold bind at 1, lift_result.
  destruct (DataManager_connect dm) as [[names conn]|e]; reflexivity.
Qed.

(** X17. Before any [initialize], [query] and [get_df] return None, and so
    does [connect] outside headless mode: the RuntimeError of
    [get_instance] is caught and logged as an error, no singleton is
    created and nothing else changes. *)
Theorem data_calls_before_initialize (rt : runtime) :
  _instance (rt_process rt) = None ->
  (forall sql source_name,
      query sql source_name rt
      = (Ok None,
         logged ERROR ("Error querying data source: " +:+ str_of_exn not_initialized) rt)) /\
  (forall source_name table_name,
      get_df source_name table_name rt
      = (Ok None,
         logged ERROR ("Error getting a dataframe from data source: "
                       +:+ str_of_exn not_initialized) rt)) /\
  (forall caller_globals,
      headless_env rt = false ->
      connect false caller_globals rt
      = (Ok None,
         logged ERROR ("Error connecting to datasources: " +:+ str_of_exn not_initialized) rt)).
Proof.
  intros Hnone. repeat split.
  - intros sql source_name.
    now rewrite query_eq, PreswaldService_get_instance_eq, Hnone.
  - intros source_name table_name.
    now rewrite get_df_eq, PreswaldService_get_instance_eq, Hnone.
  - intros caller_globals Henv. rewrite connect_eq. cbn [set_headless ret snd].
    unfold Data.connect_service, bind at 1, get. fold (headless_env rt). rewrite Henv.
    now rewrite PreswaldService_get_instance_eq, Hnone.
Qed.

Lemma connect_service_existing (caller_globals : pydict) (rt : runtime) (a : nat) :
  _instance (rt_process rt) = Some a ->
  caller_file_is_str caller_globals ->
  connect_service caller_globals rt = (Ok a, rt).
Proof.
  intros Hinst Hfile.
  assert (Hinit : forall sp, PreswaldService_initialize DataManager_raises sp rt = (Ok a, rt)).
  { intros sp. unfold PreswaldService_initialize, in_process.
    rewrite (initialize_existing _ _ _ _ Hinst). now destruct rt. }
  unfold Data.connect_service, bind at 1, get.
  destruct (match Service.assoc "PRESWALD_HEADLESS" (rt_environ rt) with
            | Some v => String.eqb v "1"
            | None => false
            end).
  - destruct (given _); [apply Hinit|].
    destruct (truthy _) eqn:Htruthy.
    + destruct (Hfile Htruthy) as [file ->].
      unfold bind, lift_result, abspath_value. apply Hinit.
    + now rewrite PreswaldService_get_instance_eq, Hinst.
  - now rewrite PreswaldService_get_instance_eq, Hinst.
Qed.

(** X18. With a singleton in place, what [connect] returns depends on the
    data manager of the singleton alone: None when it has none (a service
    initialised without a script path) or when its [connect] raises, its
    connection otherwise.  The headless variable, the script path of the
    environment and the file of the caller make no difference, and the
    singleton and its objects are left as they are. *)
Theorem connect_with_singleton
    (headless : bool) (caller_globals : pydict) (rt : runtime) (a : nat) (o : ScriptService) :
  _instance (rt_process rt) = Some a ->
  heap (rt_process rt) !! a = Some o ->
  caller_file_is_str caller_globals ->
  fst (connect headless caller_globals rt)
  = Ok (on_data_manager (data_manager o) DataManager_connect snd) /\
  _instance (rt_process (snd (connect headless caller_globals rt))) = Some a /\
  heap (rt_process (snd (connect headless caller_globals rt))) = heap (rt_process rt).
Proof.
  intros Hinst Hobj Hfile. rewrite connect_eq.
  assert (Hinst1 : _instance (rt_process (snd (set_headless headless rt))) = Some a)
    by (destruct headless; exact Hinst).
  assert (Hheap1 : heap (rt_process (snd (set_headless headless rt))) = heap (rt_process rt))
    by (destruct headless; reflexivity).
  rewrite (connect_service_existing caller_globals _ a Hinst1 Hfile).
  rewrite data_manager_method_eq, Hheap1, Hobj.
  unfold on_data_manager.
  destruct (data_manager o) as [dm|].
  - destruct (DataManager_connect dm) as [[names conn]|e];
      cbn [fst snd logged rt_process _instance heap]; now rewrite Hinst1, Hheap1.
  - cbn [fst snd logged rt_process _instance heap]. now rewrite Hinst1, Hheap1.
Qed.

(** X19. With a singleton in place, [query] and [get_df] return what the
    method of its data manager returns, logging the success; they return
    None, with the error logged, when the singleton has no data manager or
    when the method raises.  Nothing but the log changes. *)
Theorem query_and_get_df_with_singleton (rt : runtime) (a : nat) (o : ScriptService) :
  _instance (rt_process rt) = Some a ->
  heap (rt_process rt) !! a = Some o ->
  (forall sql source_name,
      fst (query sql source_name rt)
      = Ok (on_data_manager (data_manager o)
              (fun dm => DataManager_query dm sql source_name) id) /\
      exists l msg, snd (query sql source_name rt) = logged l msg rt) /\
  (forall source_name table_name,
      fst (get_df source_name table_name rt)
      = Ok (on_data_manager (data_manager o)
              (fun dm => DataManager_get_df dm source_name table_name) id) /\
      exists l msg, snd (get_df source_name table_name rt) = logged l msg rt).
Proof.
  intros Hinst Hobj. split.
  - intros sql source_name.
    rewrite query_eq, PreswaldService_get_instance_eq, Hinst, data_manager_method_eq, Hobj.
    unfold on_data_manager. destruct (data_manager o) as [dm|].
    + destruct (DataManager_query dm sql source_name);
        (split; [reflexivity | eexists _, _; reflexivity]).
    + split; [reflexivity | eexists _, _; reflexivity].
  - intros source_name table_name.
    rewrite get_df_eq, PreswaldService_get_instance_eq, Hinst, data_manager_method_eq, Hobj.
    unfold on_data_manager. destruct (data_manager o) as [dm|].
    + destruct (DataManager_get_df dm source_name table_name);
        (split; [reflexivity | eexists _, _; reflexivity]).
    + split; [reflexivity | eexists _, _; reflexivity].
Qed.

Lemma assoc_environ_set_eq (k v : string) (l : list (string * string)) :
  assoc k (environ_set k v l) = Some v.
Proof.
  induction l as [|[k' v'] l IH]; cbn [environ_set assoc].
  - now rewrite String.eqb_refl.
  - destruct (String.eqb_spec k k') as [->|Hne]; cbn [assoc].
    + now rewrite String.eqb_refl.
    + destruct (String.eqb_spec k k'); [contradiction | exact IH].
Qed.

Lemma assoc_environ_set_ne (k k' v : string) (l : list (string * string)) :
  k <> k' -> assoc k' (environ_set k v l) = assoc k' l.
Proof.
  intros Hne. induction l as [|[k0 v0] l IH]; cbn [environ_set assoc].
  - destruct (String.eqb_spec k' k); [now subst | reflexivity].
  - destruct (String.eqb_spec k k0) as [->|Hk]; cbn [assoc].
    + destruct (String.eqb_spec k' k0); [now subst | reflexivity].
    + destruct (String.eqb_spec k' k0); [reflexivity | exact IH].
Qed.

Lemma os_path_normpath_nonempty (path : string) : os_path_normpath path <> EmptyString.
Proof.
  unfold os_path_normpath.
  destruct (String.eqb path EmptyString); [discriminate|].
  destruct (String.eqb_spec (repeat_sep (initial_slashes path) +:+
                             join "/" (foldl (normpath_step (initial_slashes path)) []
                                         (split_sep path))) EmptyString);
    [discriminate | assumption].
Qed.

(** [initialize] with a script path, when there is no instance. *)
Lemma initialize_with_path (path : string) (p : process) :
  _instance p = None -> path <> EmptyString ->
  initialize DataManager_raises (Some path) p
  = (Ok (length (heap p)),
     Process (Some (length (heap p)))
       (heap p ++ [set_data_manager (Some (built_data_manager DataManager_raises path))
                     (set_script_path (Some path) fresh)])
       (data_manager_console DataManager_raises path (con (__init__ (proc_console p))))).
Proof.
  intros Hnone Hpath. rewrite (initialize_fresh _ _ _ Hnone).
  unfold initialized_object, given.
  destruct (String.eqb_spec path EmptyString) as [->|_]; [now destruct Hpath|].
  now rewrite _initialize_data_manager_eq.
Qed.

Lemma data_manager_console_stdout (path : string) (k : console) :
  stdout (data_manager_console DataManager_raises path k) = stdout k.
Proof. unfold data_manager_console. destruct (DataManager_raises _ _); reflexivity. Qed.

(** In headless mode [connect] works on a service initialised with the
    script path of the environment or, without one, with the absolute path
    of the file of the caller. *)
Lemma connect_service_headless (caller_globals : pydict) (rt : runtime) :
  headless_env rt = true ->
  connect_service caller_globals rt
  = match given (assoc "PRESWALD_SCRIPT_PATH" (rt_environ rt)) with
    | Some script_path => PreswaldService_initialize DataManager_raises (Some script_path) rt
    | None =>
        if truthy (dict_get_default "__file__" VNone caller_globals) then
          match abspath_value (rt_cwd rt) (dict_get_default "__file__" VNone caller_globals) with
          | Ok path => PreswaldService_initialize DataManager_raises (Some path) rt
          | Raise e => (Raise e, rt)
          end
        else PreswaldService_get_instance rt
    end.
Proof.
  intros Henv. unfold Data.connect_service, bind at 1, get.
  fold (headless_env rt). rewrite Henv.
  destruct (given _); [reflexivity|].
  destruct (truthy _); [|reflexivity].
  unfold bind, lift_result. destruct (abspath_value _ _); reflexivity.
Qed.

Lemma set_headless_true (rt : runtime) :
  snd (set_headless true rt)
  = Runtime (Process (_instance (rt_process rt)) (heap (rt_process rt))
               (console_print headless_banner (proc_console (rt_process rt))))
            (environ_set "PRESWALD_HEADLESS" "1" (rt_environ rt)) (rt_cwd rt).
Proof. reflexivity. Qed.

Lemma headless_env_set (rt : runtime) : headless_env (snd (set_headless true rt)) = true.
Proof.
  rewrite set_headless_true. unfold headless_env. cbn [rt_environ].
  now rewrite assoc_environ_set_eq.
Qed.

(** X20. The first [connect(headless=True)] of a process whose environment
    names a script path sets [PRESWALD_HEADLESS] to [1], prints the banner,
    and creates the singleton with that script path, whatever the file of
    the caller is; the data manager is built next to that script, and what
    [connect] returns is its connection, or None when its [connect] raises. *)
Theorem connect_headless_script_path
    (caller_globals : pydict) (rt : runtime) (path : string) :
  _instance (rt_process rt) = None ->
  assoc "PRESWALD_SCRIPT_PATH" (rt_environ rt) = Some path ->
  path <> EmptyString ->
  fst (connect true caller_globals rt)
  = Ok (on_data_manager (Some (built_data_manager DataManager_raises path))
          DataManager_connect snd) /\
  headless_env (snd (connect true caller_globals rt)) = true /\
  stdout (proc_console (rt_process (snd (connect true caller_globals rt))))
  = stdout (proc_console (rt_process rt)) ++ [headless_banner] /\
  _instance (rt_process (snd (connect true caller_globals rt)))
  = Some (length (heap (rt_process rt))) /\
  heap (rt_process (snd (connect true caller_globals rt)))
  = heap (rt_process rt)
      ++ [set_data_manager (Some (built_data_manager DataManager_raises path))
            (set_script_path (Some path) fresh)].
Proof.
  intros Hnone Henv Hpath. rewrite connect_eq.
  rewrite (connect_service_headless _ _ (headless_env_set rt)).
  rewrite set_headless_true. cbn [rt_environ rt_cwd].
  rewrite assoc_environ_set_ne by discriminate. rewrite Henv. unfold given.
  destruct (String.eqb_spec path EmptyString) as [->|_]; [now destruct Hpath|].
  unfold PreswaldService_initialize, in_process. cbn [rt_process].
  rewrite initialize_with_path by assumption.
  rewrite data_manager_method_eq. cbn [rt_process heap proc_console].
  rewrite snoc_lookup_last. cbn [data_manager set_data_manager].
  unfold on_data_manager, headless_env.
  destruct (DataManager_connect _) as [[names conn]|e];
    cbn [fst snd logged rt_process rt_environ _instance heap proc_console console_log stdout];
    rewrite assoc_environ_set_eq, data_manager_console_stdout; repeat split.
Qed.

(** X21. In headless mode, without a script path in the environment, the
    first [connect] creates the singleton from the file of the caller: its
    script path is the normalised path of that file under the working
    directory, an absolute path when the working directory is one, and its
    data manager is built next to it. *)
Theorem connect_headless_caller_file
    (headless : bool) (caller_globals : pydict) (rt : runtime) (file : string) :
  headless = true \/ headless_env rt = true ->
  _instance (rt_process rt) = None ->
  given (assoc "PRESWALD_SCRIPT_PATH" (rt_environ rt)) = None ->
  dict_get "__file__" caller_globals = Some (VStr file) ->
  file <> EmptyString ->
  _instance (rt_process (snd (connect headless caller_globals rt)))
  = Some (length (heap (rt_process rt))) /\
  exists o,
    heap (rt_process (snd (connect headless caller_globals rt)))
    = heap (rt_process rt) ++ [o] /\
    _script_path o = Some (os_path_abspath (rt_cwd rt) file) /\
    data_manager o
    = Some (built_data_manager DataManager_raises (os_path_abspath (rt_cwd rt) file)) /\
    (starts_with_sep (rt_cwd rt) = true ->
     starts_with_sep (os_path_abspath (rt_cwd rt) file) = true).
Proof.
  intros Hmode Hnone Hscript Hfile Hne. rewrite connect_eq.
  assert (Henv1 : headless_env (snd (set_headless headless rt)) = true).
  { destruct headless; [apply headless_env_set|]. now destruct Hmode. }
  assert (Hscript1 :
    given (assoc "PRESWALD_SCRIPT_PATH" (rt_environ (snd (set_headless headless rt)))) = None).
  { destruct headless; [|exact Hscript]. rewrite set_headless_true. cbn [rt_environ].
    now rewrite assoc_environ_set_ne by discriminate. }
  assert (Hnone1 : _instance (rt_process (snd (set_headless headless rt))) = None)
    by (destruct headless; exact Hnone).
  assert (Hheap1 : heap (rt_process (snd (set_headless headless rt))) = heap (rt_process rt))
    by (destruct headless; reflexivity).
  assert (Hcwd1 : rt_cwd (snd (set_headless headless rt)) = rt_cwd rt)
    by (destruct headless; reflexivity).
  rewrite (connect_service_headless _ _ Henv1), Hscript1.
  unfold dict_get_default. rewrite Hfile. cbn [truthy abspath_value].
  destruct (String.eqb_spec file EmptyString) as [->|_]; [now destruct Hne|].
  cbn [negb]. rewrite Hcwd1.
  assert (Habs : os_path_abspath (rt_cwd rt) file <> EmptyString)
    by apply os_path_normpath_nonempty.
  unfold PreswaldService_initialize, in_process.
  rewrite (initialize_with_path _ _ Hnone1 Habs).
  rewrite data_manager_method_eq. cbn [rt_process heap].
  rewrite snoc_lookup_last. cbn [data_manager set_data_manager].
  rewrite Hheap1.
  destruct (DataManager_connect _) as [[names conn]|e];
    cbn [snd logged rt_process _instance heap];
    (split; [reflexivity
            | eexists; split; [reflexivity | split; [reflexivity | split; [reflexivity|]]]]);
    apply os_path_abspath_absolute.
Qed.

(** X22. [connect], [query] and [get_df] never raise, whatever the
    service and the data manager do: each call ends by logging one record
    and returns a value with an INFO record, None with an ERROR record. *)
Theorem data_calls_never_raise
    (headless : bool) (caller_globals : pydict) (sql source_name : string)
    (table_name : option string) (rt : runtime) :
  (exists r msg rt0,
      connect headless caller_globals rt = (Ok r, logged (level_of r) msg rt0)) /\
  (exists r msg, query sql source_name rt = (Ok r, logged (level_of r) msg rt)) /\
  (exists r msg, get_df source_name table_name rt = (Ok r, logged (level_of r) msg rt)).
Proof.
  repeat split.
  - rewrite connect_eq.
    destruct (connect_service caller_globals _) as [[a|e] rt1];
      [|eexists None, _, _; reflexivity].
    destruct (data_manager_method a "connect" rt1) as [[dm|e] rt2];
      [|eexists None, _, _; reflexivity].
    destruct (DataManager_connect dm) as [[names conn]|e];
      [eexists (Some conn), _, _ | eexists None, _, _]; reflexivity.
  - rewrite query_eq, PreswaldService_get_instance_eq.
    destruct (_instance (rt_process rt)) as [a|]; [|eexists None, _; reflexivity].
    rewrite data_manager_method_eq.
    destruct (heap (rt_process rt) !! a) as [o|]; [|eexists None, _; reflexivity].
    destruct (data_manager o) as [dm|]; [|eexists None, _; reflexivity].
    destruct (DataManager_query dm sql source_name) as [df|e];
      [eexists (Some df), _ | eexists None, _]; reflexivity.
  - rewrite get_df_eq, PreswaldService_get_instance_eq.
    destruct (_instance (rt_process rt)) as [a|]; [|eexists None, _; reflexivity].
    rewrite data_manager_method_eq.
    destruct (heap (rt_process rt) !! a) as [o|]; [|eexists None, _; reflexivity].
    destruct (data_manager o) as [dm|]; [|eexists None, _; reflexivity].
    destruct (DataManager_get_df dm source_name table_name) as [df|e];
      [eexists (Some df), _ | eexists None, _]; reflexivity.
Qed.

Lemma in_process_environ {A} (m : M process A) (rt : runtime) :
  rt_environ (snd (in_process m rt)) = rt_environ rt.
Proof. unfold in_process. destruct (m (rt_process rt)). reflexivity. Qed.

Lemma connect_service_environ (caller_globals : pydict) (rt : runtime) :
  rt_environ (snd (connect_service caller_globals rt)) = rt_environ rt.
Proof.
  unfold Data.connect_service, bind at 1, get.
  destruct (match assoc "PRESWALD_HEADLESS" (rt_environ rt) with
            | Some v => String.eqb v "1"
            | None => false
            end); [|apply in_process_environ].
  destruct (given _); [apply in_process_environ|].
  destruct (truthy _); [|apply in_process_environ].
  unfold bind, lift_result. destruct (abspath_value _ _); [|reflexivity].
  apply in_process_environ.
Qed.

(** X23. [connect(headless=True)] leaves [PRESWALD_HEADLESS] set to [1] in
    the environment of the process, whatever happens next in the call, and
    no call of the module resets it: after it, [connect] runs in headless
    mode with or without the argument.  [connect] without the argument
    leaves the environment as it is. *)
Theorem connect_sets_environment
    (headless : bool) (caller_globals : pydict) (rt : runtime) :
  rt_environ (snd (connect headless caller_globals rt))
  = (if headless then environ_set "PRESWALD_HEADLESS" "1" (rt_environ rt)
     else rt_environ rt) /\
  headless_env (snd (connect true caller_globals rt)) = true /\
  (headless_env rt = true ->
   headless_env (snd (connect headless caller_globals rt)) = true).
Proof.
  assert (Henv : forall h,
    rt_environ (snd (connect h caller_globals rt))
    = rt_environ (snd (set_headless h rt))).
  { intros h. rewrite connect_eq.
    pose proof (connect_service_environ caller_globals (snd (set_headless h rt))) as Hs.
    destruct (connect_service caller_globals _) as [[a|e] rt1]; cbn [snd] in Hs;
      [|exact Hs].
    rewrite data_manager_method_eq.
    destruct (heap (rt_process rt1) !! a) as [o|]; [|exact Hs].
    destruct (data_manager o) as [dm|]; [|exact Hs].
    destruct (DataManager_connect dm) as [[names conn]|e]; exact Hs. }
  split; [|split].
  - rewrite Henv. destruct headless; reflexivity.
  - unfold headless_env. rewrite Henv, set_headless_true. cbn [rt_environ].
    now rewrite assoc_environ_set_eq.
  - intros Hset. unfold headless_env in *. rewrite Henv.
    destruct headless; [|exact Hset].
    rewrite set_headless_true. cbn [rt_environ]. now rewrite assoc_environ_set_eq.
Qed.

End DataCalls.

Lemma data_calls_before_initialize_witness :
  (_instance (rt_process runtime_start) = None /\ headless_env runtime_start = false) /\
  Data.query nat answers "select 1" "sales" runtime_start
  = (Ok None,
     logged ERROR
       "Error querying data source: ScriptService not initialized. Did you call initialize()?"
       runtime_start) /\
  Data.get_df nat gets "sales" None runtime_start
  = (Ok None,
     logged ERROR
       "Error getting a dataframe from data source: ScriptService not initialized. Did you call initialize()?"
       runtime_start) /\
  Data.connect nat never_raises connects false [("__file__", VStr "app.py")] runtime_start
  = (Ok None,
     logged ERROR
       "Error connecting to datasources: ScriptService not initialized. Did you call initialize()?"
       runtime_start).
Proof.
  split; [split; reflexivity|].
  destruct (data_calls_before_initialize nat nat never_raises connects answers gets
              runtime_start eq_refl) as (Hquery & Hget & Hconnect).
  split; [apply Hquery|]. split; [apply Hget|].
  apply Hconnect. reflexivity.
Defined.

Lemma connect_with_singleton_witness :
  (_instance (rt_process runtime_initialized) = Some 0%nat /\
   heap (rt_process runtime_initialized) !! 0%nat = Some fresh /\
   caller_file_is_str [("__file__", VStr "app.py")]) /\
  fst (Data.connect nat never_raises connects true [("__file__", VStr "app.py")]
         runtime_initialized) = Ok None.
Proof.
  assert (Hfile : caller_file_is_str [("__file__", VStr "app.py")])
    by (intros _; now exists "app.py").
  split; [split; [reflexivity | split; [reflexivity | exact Hfile]]|].
  apply (proj1 (connect_with_singleton nat never_raises connects true
                  [("__file__", VStr "app.py")] runtime_initialized 0%nat fresh
                  eq_refl eq_refl Hfile)).
Defined.

Lemma query_and_get_df_with_singleton_witness :
  (_instance (rt_process runtime_initialized) = Some 0%nat /\
   heap (rt_process runtime_initialized) !! 0%nat = Some fresh) /\
  fst (Data.query nat answers "select 1" "sales" runtime_initialized) = Ok None /\
  fst (Data.get_df nat gets "sales" None runtime_initialized) = Ok None.
Proof.
  split; [split; reflexivity|].
  destruct (query_and_get_df_with_singleton nat answers gets runtime_initialized 0%nat fresh
              eq_refl eq_refl) as [Hquery Hget].
  split.
  - apply (proj1 (Hquery "select 1" "sales")).
  - apply (proj1 (Hget "sales" None)).
Defined.

Lemma connect_headless_script_path_witness :
  (_instance (rt_process runtime_with_script) = None /\
   assoc "PRESWALD_SCRIPT_PATH" (rt_environ runtime_with_script) = Some "/srv/app/hello.py" /\
   "/srv/app/hello.py" <> EmptyString) /\
  fst (Data.connect nat never_raises connects true [("__file__", VStr "other.py")]
         runtime_with_script) = Ok (Some 7%nat) /\
  heap (rt_process (snd (Data.connect nat never_raises connects true
                           [("__file__", VStr "other.py")] runtime_with_script)))
  = [set_data_manager
       (Some (mkDataManager (Some "/srv/app/preswald.toml") (Some "/srv/app/secrets.toml")))
       (set_script_path (Some "/srv/app/hello.py") fresh)].
Proof.
  split; [split; [reflexivity | split; [reflexivity | discriminate]]|].
  destruct (connect_headless_script_path nat never_raises connects
              [("__file__", VStr "other.py")] runtime_with_script "/srv/app/hello.py"
              eq_refl eq_refl ltac:(discriminate))
    as (Hres & _ & _ & _ & Hheap).
  split; [exact Hres | exact Hheap].
Defined.

Lemma connect_headless_caller_file_witness :
  (given (assoc "PRESWALD_SCRIPT_PATH" (rt_environ runtime_start)) = None /\
   _instance (rt_process runtime_start) = None /\
   dict_get "__file__" [("__file__", VStr "x/../app.py")] = Some (VStr "x/../app.py") /\
   "x/../app.py" <> EmptyString) /\
  exists o,
    heap (rt_process (snd (Data.connect nat never_raises connects true
                             [("__file__", VStr "x/../app.py")] runtime_start)))
    = [o] /\
    _script_path o = Some "/home/u/app.py".
Proof.
  split; [split; [reflexivity | split; [reflexivity | split; [reflexivity | discriminate]]]|].
  destruct (connect_headless_caller_file nat never_raises connects true
              [("__file__", VStr "x/../app.py")] runtime_start "x/../app.py"
              (or_introl eq_refl) eq_refl eq_refl eq_refl ltac:(discriminate))
    as (_ & o & Hheap & Hpath & _).
  exists o. split; [exact Hheap | exact Hpath].
Defined.

Lemma connect_sets_environment_witness :
  headless_env (snd (Data.connect nat never_raises connects true [] runtime_start)) = true /\
  headless_env
    (snd (Data.connect nat never_raises connects false []
            (snd (Data.connect nat never_raises connects true [] runtime_start))))
  = true.
Proof.
  pose proof (proj1 (proj2 (connect_sets_environment nat never_raises connects true []
                              runtime_start))) as Hset.
  split; [exact Hset|].
  apply (proj2 (proj2 (connect_sets_environment nat never_raises connects false []
                         (snd (Data.connect nat never_raises connects true [] runtime_start))))).
  exact Hset.
Defined.

Lemma at_most_one_object_witness :
  _instance (run_class everything_exists never_raises
               [Initialize None; Initialize (Some "/srv/app/hello.py"); Get_instance]
               process_start) = Some 0%nat /\
  exists o,
    heap (run_class everything_exists never_raises
            [Initialize None; Initialize (Some "/srv/app/hello.py"); Get_instance]
            process_start) = [o].
Proof.
  split; [reflexivity|].
  apply (proj2 (at_most_one_object everything_exists never_raises
                  [Initialize None; Initialize (Some "/srv/app/hello.py"); Get_instance])
           0%nat eq_refl).
Defined.

(** * What the methods leave alone *)

Lemma exec_frame (c : call) (s : self_state) :
  exists m h b,
    self (exec c s)
    = mkScriptService m h (data_manager (self s)) (branding_manager (self s))
        (_script_path (self s)) b (websocket_connections (self s))
        (script_runners (self s)).
Proof.
  destruct c as [comp|cid msg|i dflt| | |rc|uc| |];
    try (destruct s as [[] ?]; eexists _, _, _; reflexivity).
  - cbn [exec]. rewrite append_component_self.
    destruct s as [[] ?]. eexists _, _, _. reflexivity.
  - cbn [exec]. rewrite handle_client_message_eq.
    destruct (eq_str _ _); [|destruct s as [[] ?]; eexists _, _, _; reflexivity].
    destruct (dict_get_default "states" (VDict []) msg);
      destruct s as [[] ?]; eexists _, _, _; reflexivity.
Qed.

(** X24. No sequence of method calls touches the data manager or the script
    path of the service, nor the attributes kept for compatibility
    ([branding_manager], [websocket_connections], [script_runners]): the
    methods change the state store, the history and the shutdown flag, and
    nothing else of the object. *)
Theorem methods_frame (cs : list call) (s : self_state) :
  exists m h b,
    self (run cs s)
    = mkScriptService m h (data_manager (self s)) (branding_manager (self s))
        (_script_path (self s)) b (websocket_connections (self s))
        (script_runners (self s)).
Proof.
  revert s. induction cs as [|c cs IH]; intros s.
  - destruct s as [[] ?]. eexists _, _, _. reflexivity.
  - unfold run. cbn [foldl]. fold (run cs (exec c s)).
    destruct (IH (exec c s)) as (m & h & b & ->).
    destruct (exec_frame c s) as (m1 & h1 & b1 & ->).
    eexists _, _, _. reflexivity.
Qed.
